(** * TeleMedicineAIHelper: backend access layer, session view and route guard

    A shallow embedding of the original logic of the single-page
    application:

    - [src/config/supabase.ts]: error wrapper, CRUD and storage helpers,
      the query built by [getRecords], [getUserRole];
    - [src/hooks/useAuth.tsx]: the derived user view of [AuthProvider],
      [isAuthenticated], [login];
    - [src/components/auth/ProtectedRoute.tsx]: the route guard;
    - [src/App.tsx]: the route table.

    Asynchronous functions are modelled by the value their promise
    settles to: [Returned v] for a resolved promise, [Thrown e] for a
    rejected one.  The hosted backend is not part of the repository; each
    helper takes the answer of the remote client as data. *)

From Stdlib Require Import String Ascii List Bool ZArith Lia.
Import ListNotations.

Local Open Scope string_scope.
Local Open Scope list_scope.

(* ===================================================================== *)
(** ** JavaScript values as the code uses them *)
(* ===================================================================== *)

Module JS.

(** An optional string property: [None] is [undefined]/[null]. *)
Definition jstring := option string.

Definition nonempty (s : string) : bool :=
  match s with
  | EmptyString => false
  | String _ _ => true
  end.

(** Truthiness of a string-or-undefined value: [undefined], [null] and
    the empty string are falsy. *)
Definition truthy (v : jstring) : bool :=
  match v with
  | None => false
  | Some s => nonempty s
  end.

(** [a || b] on string-or-undefined operands. *)
Definition or (a b : jstring) : jstring :=
  if truthy a then a else b.

(** [a || 'literal']: the right operand is a string, so is the result. *)
Definition or_str (a : jstring) (b : string) : string :=
  match a with
  | Some s => if nonempty s then s else b
  | None => b
  end.

(** [a || undefined]. *)
Definition or_undefined (a : jstring) : jstring := or a None.

(** [o?.f]: property access through a possibly missing object. *)
Definition opt_get {A : Type} (o : option A) (f : A -> jstring) : jstring :=
  match o with
  | Some x => f x
  | None => None
  end.

(** Truthiness of a number: zero is falsy. *)
Definition truthy_num (n : option Z) : bool :=
  match n with
  | Some z => negb (Z.eqb z 0)
  | None => false
  end.

(** [n || d] on numbers. *)
Definition or_num (n : option Z) (d : Z) : Z :=
  match n with
  | Some z => if Z.eqb z 0 then d else z
  | None => d
  end.

(** [b ?? d] on booleans. *)
Definition nullish_bool (b : option bool) (d : bool) : bool :=
  match b with
  | Some x => x
  | None => d
  end.

(** [s.split(sep)[0]]: the text before the first occurrence of the
    separator character, the whole string when it does not occur. *)
Fixpoint split_head (sep : ascii) (s : string) : string :=
  match s with
  | EmptyString => EmptyString
  | String c rest =>
      if Ascii.eqb c sep then EmptyString
      else String c (split_head sep rest)
  end.

End JS.

(* ===================================================================== *)
(** ** Promise outcomes *)
(* ===================================================================== *)

(** What a rejected promise carries.  [SupabaseError] is the class of
    [config/supabase.ts] (its [name] field is the constant
    ['SupabaseError']); [TypeError] is the runtime's, raised on a property
    read through [null]. *)
Inductive Exn : Type :=
| SupabaseError (message : string) (code : option string)
| TypeError.

Inductive Outcome (T : Type) : Type :=
| Returned (value : T)
| Thrown (exn : Exn).

Arguments Returned {T} value.
Arguments Thrown {T} exn.

Definition is_thrown {T : Type} (o : Outcome T) : bool :=
  match o with
  | Returned _ => false
  | Thrown _ => true
  end.

(* ===================================================================== *)
(** ** [src/config/supabase.ts] *)
(* ===================================================================== *)

Module Supabase.

(** *** User roles enum *)

Definition PATIENT : string := "patient".
Definition DOCTOR : string := "doctor".
Definition ADMIN : string := "admin".
Definition NURSE : string := "nurse".

(** *** Auth state types

    [role] is typed [UserRole], but the metadata objects come from the
    remote service as JSON and every use is an unchecked cast, so a role
    is a string at run time. *)

Module UserMetadata.
Record t : Type := mk {
  full_name : JS.jstring;
  avatar_url : JS.jstring;
  role : JS.jstring
}.
End UserMetadata.

Module AppMetadata.
Record t : Type := mk {
  role : JS.jstring
}.
End AppMetadata.

Module AuthUser.
Record t : Type := mk {
  id : string;
  email : JS.jstring;
  user_metadata : option UserMetadata.t;
  app_metadata : option AppMetadata.t;
  created_at : JS.jstring
}.
End AuthUser.

(** *** The structured error of the remote client and its responses

    Every call of the remote client settles to an object
    [{ data, error }]; [error] is [null] on success. *)

Record RemoteError : Type := mkRemoteError {
  message : JS.jstring;
  code : JS.jstring
}.

Record Response (T : Type) : Type := mkResponse {
  data : option T;
  error : option RemoteError
}.

Arguments mkResponse {T} data error.
Arguments data {T} r.
Arguments error {T} r.

(** *** Error handling *)

Definition default_message : string := "An unexpected error occurred".

(** [handleSupabaseError]: its return type is [never], it always throws. *)
Definition handleSupabaseError {T : Type} (error : RemoteError) : Outcome T :=
  Thrown (SupabaseError (JS.or_str (message error) default_message)
                        (code error)).

(** [getUserRole], given what [getCurrentUser] resolves to. *)
Definition getUserRole (user : option AuthUser.t) : JS.jstring :=
  match user with
  | None => None
  | Some user =>
      (* Check app_metadata first (set by admin), then user_metadata *)
      JS.or (JS.or (JS.opt_get (AuthUser.app_metadata user) AppMetadata.role)
                   (JS.opt_get (AuthUser.user_metadata user) UserMetadata.role))
            None
  end.

(** *** The query builder

    A builder is the table, the selected columns and the chain of
    modifier calls made on it, in call order. *)

Inductive Modifier (Value : Type) : Type :=
| Eq (column : string) (value : Value)
| Order (column : string) (ascending : bool)
| Limit (count : Z)
| Range (from to : Z).

Arguments Eq {Value} column value.
Arguments Order {Value} column ascending.
Arguments Limit {Value} count.
Arguments Range {Value} from to.

Record Builder (Value : Type) : Type := mkBuilder {
  table : string;
  columns : string;
  calls : list (Modifier Value)
}.

Arguments mkBuilder {Value} table columns calls.
Arguments table {Value} b.
Arguments columns {Value} b.
Arguments calls {Value} b.

Definition chain {Value : Type} (qb : Builder Value) (m : Modifier Value)
  : Builder Value :=
  mkBuilder (table qb) (columns qb) (calls qb ++ [m]).

Record OrderBy : Type := mkOrderBy {
  column : string;
  ascending : option bool
}.

Record Query (Value : Type) : Type := mkQuery {
  select : JS.jstring;
  filter : option (list (string * Value));
  order : option OrderBy;
  limit : option Z;
  offset : option Z
}.

Arguments mkQuery {Value} select filter order limit offset.
Arguments select {Value} q.
Arguments filter {Value} q.
Arguments order {Value} q.
Arguments limit {Value} q.
Arguments offset {Value} q.

Definition opt_bind {A B : Type} (o : option A) (f : A -> option B) : option B :=
  match o with
  | Some x => f x
  | None => None
  end.

(** The builder [getRecords] has assembled when it awaits it. *)
Definition getRecords_builder {Value : Type}
  (table : string) (query : option (Query Value)) : Builder Value :=
  let queryBuilder :=
    mkBuilder table (JS.or_str (JS.opt_get query select) "*") [] in
  let queryBuilder :=
    match opt_bind query filter with
    | Some entries =>
        fold_left (fun qb kv => chain qb (Eq (fst kv) (snd kv)))
                  entries queryBuilder
    | None => queryBuilder
    end in
  let queryBuilder :=
    match opt_bind query order with
    | Some o =>
        chain queryBuilder
              (Order (column o) (JS.nullish_bool (ascending o) true))
    | None => queryBuilder
    end in
  let queryBuilder :=
    if JS.truthy_num (opt_bind query limit) then
      match opt_bind query limit with
      | Some l => chain queryBuilder (Limit l)
      | None => queryBuilder
      end
    else queryBuilder in
  let queryBuilder :=
    if JS.truthy_num (opt_bind query offset) then
      match opt_bind query offset with
      | Some off =>
          chain queryBuilder
                (Range off (off + JS.or_num (opt_bind query limit) 10 - 1))
      | None => queryBuilder
      end
    else queryBuilder in
  queryBuilder.

(** *** The remote client

    One field per request shape the helpers issue; each gives the
    [{ data, error }] the request settles to. *)

Record UploadData : Type := mkUploadData {
  path : string
}.

Record UploadOptions : Type := mkUploadOptions {
  upsert : option bool
}.

Section Helpers.

Context {Row Value File : Type}.

Record Client : Type := mkClient {
  (* from(table).insert(data).select().single() *)
  insert_select_single : string -> Row -> Response Row;
  (* from(table).update(data).eq('id', id).select().single() *)
  update_eq_select_single : string -> Row -> string -> Response Row;
  (* from(table).delete().eq('id', id) *)
  delete_eq : string -> string -> Response unit;
  (* from(table).select('*').eq('id', id).single() *)
  select_eq_single : string -> string -> Response Row;
  (* awaiting a builder of from(table).select(columns) *)
  await_select : Builder Value -> Response (list Row);
  (* storage.from(bucket).upload(path, file, options) *)
  storage_upload :
    string -> string -> File -> option UploadOptions -> Response UploadData;
  (* storage.from(bucket).remove([path]) *)
  storage_remove : string -> list string -> Response unit;
  (* storage.from(bucket).getPublicUrl(path).data.publicUrl *)
  storage_getPublicUrl : string -> string -> string
}.

Variable supabase : Client.

(** [if (error) handleSupabaseError(error); k] *)
Definition rethrow {A B : Type} (r : Response A) (k : Outcome B) : Outcome B :=
  match error r with
  | Some e => handleSupabaseError e
  | None => k
  end.

(** *** File upload helpers *)

Definition uploadFile (bucket path_ : string) (file : File)
  (options : option UploadOptions) : Outcome string :=
  let r := storage_upload supabase bucket path_ file options in
  rethrow r
    match data r with
    | Some d => Returned (storage_getPublicUrl supabase bucket (path d))
    | None => Thrown TypeError
    end.

Definition deleteFile (bucket path_ : string) : Outcome unit :=
  let r := storage_remove supabase bucket [path_] in
  rethrow r (Returned tt).

(** *** Database query helpers

    [result as T] is an unchecked cast: the helper returns [data] as it
    came, [None] standing for [null]. *)

Definition createRecord (table : string) (data_ : Row) : Outcome (option Row) :=
  let r := insert_select_single supabase table data_ in
  rethrow r (Returned (data r)).

Definition updateRecord (table id : string) (data_ : Row)
  : Outcome (option Row) :=
  let r := update_eq_select_single supabase table data_ id in
  rethrow r (Returned (data r)).

Definition deleteRecord (table id : string) : Outcome unit :=
  let r := delete_eq supabase table id in
  rethrow r (Returned tt).

Definition getRecord (table id : string) : Outcome (option Row) :=
  let r := select_eq_single supabase table id in
  match error r with
  | Some e =>
      match code e with
      | Some c =>
          if String.eqb c "PGRST116" then Returned (data r)
          else handleSupabaseError e
      | None => handleSupabaseError e
      end
  | None => Returned (data r)
  end.

Definition getRecords (table : string) (query : option (Query Value))
  : Outcome (option (list Row)) :=
  let r := await_select supabase (getRecords_builder table query) in
  rethrow r (Returned (data r)).

End Helpers.

Arguments Client Row Value File : clear implicits.

End Supabase.

(* ===================================================================== *)
(** ** The hosted query service *)
(* ===================================================================== *)

(** The client library and the database behind it are external to the
    repository.  This module records how the service answers the builder
    chains [getRecords] sends: [eq] adds a column filter, [order] adds a
    sort key, [limit(count)] sets the row limit, and [range(from, to)] is
    inclusive: it sets the row offset to [from] and the row limit to
    [to - from + 1].  A later call overwrites the limit or offset of an
    earlier one.  Row counts are non-negative; how a row is compared with
    a filter value and how rows are sorted is left to the database. *)

Module Postgrest.

Import Supabase.

Record Request (Value : Type) : Type := mkRequest {
  filters : list (string * Value);
  ordering : list (string * bool);
  row_limit : option Z;
  row_offset : option Z
}.

Arguments mkRequest {Value} filters ordering row_limit row_offset.
Arguments filters {Value} r.
Arguments ordering {Value} r.
Arguments row_limit {Value} r.
Arguments row_offset {Value} r.

Definition empty_request {Value : Type} : Request Value :=
  mkRequest [] [] None None.

Definition apply_modifier {Value : Type}
  (r : Request Value) (m : Modifier Value) : Request Value :=
  match m with
  | Eq k v =>
      mkRequest (filters r ++ [(k, v)]) (ordering r) (row_limit r) (row_offset r)
  | Order c asc =>
      mkRequest (filters r) (ordering r ++ [(c, asc)]) (row_limit r) (row_offset r)
  | Limit n =>
      mkRequest (filters r) (ordering r) (Some n) (row_offset r)
  | Range from to =>
      mkRequest (filters r) (ordering r) (Some (to - from + 1)%Z) (Some from)
  end.

Definition request_of {Value : Type} (b : Builder Value) : Request Value :=
  fold_left apply_modifier (calls b) empty_request.

(** Rows [from .. from + count - 1] of a list. *)
Definition slice {Row : Type} (from count : Z) (rows : list Row) : list Row :=
  firstn (Z.to_nat count) (skipn (Z.to_nat from) rows).

Section Database.

Context {Row Value : Type}.

Variable row_matches : string -> Value -> Row -> bool.
Variable sort_rows : list (string * bool) -> list Row -> list Row.

Definition matching (r : Request Value) (rows : list Row) : list Row :=
  List.filter
    (fun row => forallb (fun kv => row_matches (fst kv) (snd kv) row) (filters r))
    rows.

(** The filtered and ordered result set, before pagination. *)
Definition result_set (r : Request Value) (rows : list Row) : list Row :=
  sort_rows (ordering r) (matching r rows).

Definition paginate (r : Request Value) (rows : list Row) : list Row :=
  let skipped :=
    match row_offset r with
    | Some off => skipn (Z.to_nat off) rows
    | None => rows
    end in
  match row_limit r with
  | Some n => firstn (Z.to_nat n) skipped
  | None => skipped
  end.

Definition run (r : Request Value) (rows : list Row) : list Row :=
  paginate r (result_set r rows).

(** The answer to a select builder when the table holds [rows]. *)
Definition answer (rows : list Row) (b : Builder Value)
  : Response (list Row) :=
  mkResponse (Some (run (request_of b) rows)) None.

(** A client whose select queries are served from [rows]. *)
Definition serves {File : Type}
  (c : Client Row Value File) (rows : list Row) : Prop :=
  forall b, await_select c b = answer rows b.

End Database.

End Postgrest.

(* ===================================================================== *)
(** ** The session hook [useSupabaseAuth] *)
(* ===================================================================== *)

Module Profile.
(** The columns of the profile row that [AuthProvider] reads. *)
Record t : Type := mk {
  full_name : JS.jstring;
  email : JS.jstring;
  role : JS.jstring;
  avatar_url : JS.jstring;
  phone : JS.jstring;
  date_of_birth : JS.jstring;
  gender : JS.jstring;
  medical_license : JS.jstring;
  specialization : JS.jstring;
  department : JS.jstring;
  created_at : JS.jstring;
  updated_at : JS.jstring
}.
End Profile.

Module UseSupabaseAuth.

Import Supabase.

(** The argument of [signIn], as its callers build it. *)
Record SignInData : Type := mkSignInData {
  email : string;
  password : string
}.

(** What the callers read from the result of [signIn]. *)
Record AuthResult : Type := mkAuthResult {
  success : bool;
  message : string
}.

(** What [AuthProvider] destructures from the hook. *)
Record HookState : Type := mkHookState {
  user : option AuthUser.t;
  profile : option Profile.t;
  loading : bool;
  error : JS.jstring
}.

(** Modelled from the spec: the requests the hook sends to the remote
    auth service; [signIn] "delegates to remote auth". *)
Inductive AuthCall : Type :=
| SignInWithPassword (credentials : SignInData).

(** Modelled from the spec: the text [signIn] reports when the remote
    error carries none ("a non-empty message"). *)
Definition sign_in_failed : string := "Sign in failed".

(** Modelled from the spec: the text [signIn] reports on success
    ("a human-readable message"). *)
Definition sign_in_ok : string := "Signed in successfully".

(** Modelled from the spec: [signIn] of [src/hooks/useSupabaseAuth.tsx],
    which is not among the sources.  Spec 4.1: "delegates to remote auth;
    returns a success flag and a human-readable message; does not retry";
    spec 8: with invalid credentials it "returns success=false and a
    non-empty message; session remains null".  The function yields the
    result, the hook state afterwards and the requests it has sent. *)
Definition signIn
  (signInWithPassword : SignInData -> Response AuthUser.t)
  (st : HookState) (credentials : SignInData)
  : AuthResult * HookState * list AuthCall :=
  let r := signInWithPassword credentials in
  let sent := [SignInWithPassword credentials] in
  match Supabase.error r with
  | Some e =>
      let text := JS.or_str (Supabase.message e) sign_in_failed in
      (mkAuthResult false text,
       mkHookState (user st) (profile st) false (Some text),
       sent)
  | None =>
      (mkAuthResult true sign_in_ok,
       mkHookState (data r) (profile st) false None,
       sent)
  end.

End UseSupabaseAuth.

(* ===================================================================== *)
(** ** [src/hooks/useAuth.tsx] *)
(* ===================================================================== *)

Module User.
Record t : Type := mk {
  id : string;
  name : string;
  email : string;
  role : string;
  avatar : JS.jstring;
  phone : JS.jstring;
  dateOfBirth : JS.jstring;
  gender : JS.jstring;
  medicalLicense : JS.jstring;
  specialization : JS.jstring;
  department : JS.jstring;
  dateCreated : JS.jstring;
  lastActive : JS.jstring
}.
End User.

Module UseAuth.

Import Supabase.

(** The part of the email before ['@']: [email?.split('@')[0]]. *)
Definition email_local_part (email : JS.jstring) : JS.jstring :=
  option_map (JS.split_head "@"%char) email.

(** The derived user view of [AuthProvider].
    Simplified authentication - only requires Supabase user session. *)
Definition derive_user
  (supabaseUser : option AuthUser.t) (profile : option Profile.t)
  : option User.t :=
  match supabaseUser with
  | Some supabaseUser =>
      let user_metadata := AuthUser.user_metadata supabaseUser in
      Some (User.mk
        (AuthUser.id supabaseUser)
        (JS.or_str
           (JS.or (JS.or (JS.opt_get profile Profile.full_name)
                         (JS.opt_get user_metadata UserMetadata.full_name))
                  (email_local_part (AuthUser.email supabaseUser)))
           "User")
        (JS.or_str
           (JS.or (JS.opt_get profile Profile.email)
                  (AuthUser.email supabaseUser))
           "")
        (JS.or_str
           (JS.or (JS.opt_get profile Profile.role)
                  (JS.opt_get user_metadata UserMetadata.role))
           "patient")
        (JS.or_undefined (JS.opt_get profile Profile.avatar_url))
        (JS.or_undefined (JS.opt_get profile Profile.phone))
        (JS.or_undefined (JS.opt_get profile Profile.date_of_birth))
        (JS.or_undefined (JS.opt_get profile Profile.gender))
        (JS.or_undefined (JS.opt_get profile Profile.medical_license))
        (JS.or_undefined (JS.opt_get profile Profile.specialization))
        (JS.or_undefined (JS.opt_get profile Profile.department))
        (JS.or (JS.opt_get profile Profile.created_at)
               (AuthUser.created_at supabaseUser))
        (JS.or_undefined (JS.opt_get profile Profile.updated_at)))
  | None => None
  end.

(** Authentication is true if we have a Supabase user, regardless of
    profile status: [!!supabaseUser && !!supabaseUser.id]. *)
Definition isAuthenticated (supabaseUser : option AuthUser.t) : bool :=
  match supabaseUser with
  | Some supabaseUser => JS.nonempty (AuthUser.id supabaseUser)
  | None => false
  end.

(** [login]: the success flag of [signIn], [false] when it throws. *)
Definition login
  (signIn : UseSupabaseAuth.SignInData -> Outcome UseSupabaseAuth.AuthResult)
  (email password : string) : bool :=
  match signIn (UseSupabaseAuth.mkSignInData email password) with
  | Returned result => UseSupabaseAuth.success result
  | Thrown _ => false
  end.

(** The value [AuthProvider] puts in the context (its data fields). *)
Record AuthContextType : Type := mkAuthContext {
  user : option User.t;
  ctx_isAuthenticated : bool;
  loading : bool;
  error : JS.jstring
}.

Definition AuthProvider (hook : UseSupabaseAuth.HookState) : AuthContextType :=
  mkAuthContext
    (derive_user (UseSupabaseAuth.user hook) (UseSupabaseAuth.profile hook))
    (isAuthenticated (UseSupabaseAuth.user hook))
    (UseSupabaseAuth.loading hook)
    (UseSupabaseAuth.error hook).

End UseAuth.

(* ===================================================================== *)
(** ** [src/components/auth/ProtectedRoute.tsx] *)
(* ===================================================================== *)

Module Guard.

Record ProtectedRouteProps : Type := mkProps {
  isAuthenticated : bool;
  loading : option bool;
  redirectPath : JS.jstring
}.

(** What the guard renders. *)
Inductive Rendered : Type :=
| LoadingSpinner
| Navigate (to : string) (replace : bool)
| Outlet.

(** Default of a destructured parameter: used when the property is
    [undefined]. *)
Definition default {A : Type} (v : option A) (d : A) : A :=
  match v with
  | Some x => x
  | None => d
  end.

Definition ProtectedRoute (props : ProtectedRouteProps) : Rendered :=
  let loading := default (loading props) false in
  let redirectPath := default (redirectPath props) "/login" in
  (* Show loading spinner while authentication is being checked *)
  if loading then LoadingSpinner
  (* Redirect to login if not authenticated *)
  else if negb (isAuthenticated props) then Navigate redirectPath true
  else Outlet.

End Guard.

(* ===================================================================== *)
(** ** [src/App.tsx] *)
(* ===================================================================== *)

Module App.

Inductive Element : Type :=
| Layout
| LandingPage
| LoginPage
| RegisterPage
| EmailVerificationPage
| PasswordResetPage
| Dashboard
| AppointmentsPage
| ConsultationPage
| MedicalRecordsPage
| ChatPage
| ChatbotPage
| PrescriptionsPage
| NotificationsPage
| ProfilePage
| AdminDashboard
| ProtectedRoute (props : Guard.ProtectedRouteProps).

Inductive RoutePath : Type :=
| Index
| Path (p : string)
| Pathless.

#[warnings="-register-all"] Inductive RouteNode : Type :=
| Route (path : RoutePath) (element : Element) (children : list RouteNode).

Inductive View : Type :=
| LoadingScreen
| Routes (table : list RouteNode).

(** [user?.role === 'admin'] *)
Definition isAdmin (user : option User.t) : bool :=
  match user with
  | Some u => String.eqb (User.role u) "admin"
  | None => false
  end.

Definition protected_routes (isAdmin : bool) : list RouteNode :=
  [ Route (Path "dashboard") Dashboard [];
    Route (Path "appointments") AppointmentsPage [];
    Route (Path "consultation/:id") ConsultationPage [];
    Route (Path "medical-records") MedicalRecordsPage [];
    Route (Path "chat") ChatPage [];
    Route (Path "chat/:channelUrl") ChatPage [];
    Route (Path "chatbot") ChatbotPage [];
    Route (Path "prescriptions") PrescriptionsPage [];
    Route (Path "notifications") NotificationsPage [];
    Route (Path "profile") ProfilePage [] ]
  (* Admin Routes *)
  ++ (if isAdmin then [ Route (Path "admin") AdminDashboard [] ] else []).

Definition App (ctx : UseAuth.AuthContextType) : View :=
  let isAuthenticated := UseAuth.ctx_isAuthenticated ctx in
  let loading := UseAuth.loading ctx in
  let user := UseAuth.user ctx in
  let isAdmin := isAdmin user in
  if loading then LoadingScreen
  else
    Routes
      [ Route (Path "/") Layout
          ([ Route Index LandingPage [];
             Route (Path "login") LoginPage [];
             Route (Path "register") RegisterPage [];
             Route (Path "auth/verify") EmailVerificationPage [];
             Route (Path "auth/confirm") EmailVerificationPage [];
             Route (Path "verify") EmailVerificationPage [];
             Route (Path "reset-password") PasswordResetPage [];
             Route (Path "auth/reset-password") PasswordResetPage [] ]
           (* Protected Routes *)
           ++ [ Route Pathless
                  (ProtectedRoute (Guard.mkProps isAuthenticated None None))
                  (protected_routes isAdmin) ]) ].

(** *** Reading a route table

    The router joins a child's path to its parent's with one ['/'] and
    collapses repeated slashes. *)

Fixpoint squeeze (s : string) : string :=
  match s with
  | EmptyString => EmptyString
  | String c rest =>
      match rest with
      | String c' _ =>
          if (Ascii.eqb c "/" && Ascii.eqb c' "/")%bool then squeeze rest
          else String c (squeeze rest)
      | EmptyString => String c EmptyString
      end
  end.

Definition join_paths (parent child : string) : string :=
  squeeze (parent ++ "/" ++ child).

Definition is_guard (e : Element) : bool :=
  match e with
  | ProtectedRoute _ => true
  | _ => false
  end.

(** A mounted route: its full path, its element, and whether it lies
    below a [ProtectedRoute] element. *)
Record Mounted : Type := mkMounted {
  full_path : string;
  page : Element;
  guarded : bool
}.

Fixpoint mounted_under (parent : string) (below_guard : bool) (n : RouteNode)
  : list Mounted :=
  match n with
  | Route p el children =>
      let here :=
        match p with
        | Path q => join_paths parent q
        | Index | Pathless => parent
        end in
      let inner := (below_guard || is_guard el)%bool in
      let self :=
        match p with
        | Pathless => []
        | Index | Path _ => [mkMounted here el below_guard]
        end in
      self ++ flat_map (mounted_under here inner) children
  end.

Definition mounted (table : list RouteNode) : list Mounted :=
  flat_map (mounted_under "" false) table.

Definition mounted_view (v : View) : list Mounted :=
  match v with
  | LoadingScreen => []
  | Routes table => mounted table
  end.

Definition is_at (path : string) (below_guard : bool) (m : Mounted) : bool :=
  (String.eqb (full_path m) path && Bool.eqb (guarded m) below_guard)%bool.

(** Is a route with this full path mounted below (resp. outside) a guard? *)
Definition has_route (path : string) (below_guard : bool) (v : View) : bool :=
  existsb (is_at path below_guard) (mounted_view v).

End App.

(* ===================================================================== *)
(** ** Precedence rules, as the specification words them *)
(* ===================================================================== *)

Module Precedence.

(** The first candidate that is present and non-empty, in list order. *)
Fixpoint first_present (candidates : list JS.jstring) : JS.jstring :=
  match candidates with
  | [] => None
  | c :: rest => if JS.truthy c then c else first_present rest
  end.

(** "[c1] first, falling back to [c2], ..., then a default". *)
Definition resolve (candidates : list JS.jstring) (default : string) : string :=
  match first_present candidates with
  | Some s => s
  | None => default
  end.

(** The role precedence of the specification: "application-level role,
    then user-supplied role, then default patient"; the user-supplied role
    is the profile's or the user metadata's. *)
Definition claimed_role
  (u : Supabase.AuthUser.t) (profile : option Profile.t) : string :=
  resolve
    [ JS.opt_get (Supabase.AuthUser.app_metadata u) Supabase.AppMetadata.role;
      JS.opt_get profile Profile.role;
      JS.opt_get (Supabase.AuthUser.user_metadata u) Supabase.UserMetadata.role ]
    "patient".

(** Does the character occur in the string? *)
Fixpoint occurs (c : ascii) (s : string) : bool :=
  match s with
  | EmptyString => false
  | String c' rest => (Ascii.eqb c' c || occurs c rest)%bool
  end.

End Precedence.

(* ===================================================================== *)
(** ** Vocabulary for paging *)
(* ===================================================================== *)

Module Paging.

(** Limit and range calls of a builder chain. *)
Definition is_paging {Value : Type} (m : Supabase.Modifier Value) : bool :=
  match m with
  | Supabase.Limit _ | Supabase.Range _ _ => true
  | _ => false
  end.

(** The builder of the same query without limit and offset. *)
Definition unpaged {Value : Type} (table : string) (select : JS.jstring)
  (filter : option (list (string * Value))) (order : option Supabase.OrderBy)
  : Supabase.Builder Value :=
  Supabase.getRecords_builder table
    (Some (Supabase.mkQuery select filter order None None)).

End Paging.

(* ===================================================================== *)
(** ** Fixtures: concrete identities, tables and clients *)
(* ===================================================================== *)

Module Fixtures.

Import Supabase.

(** An identity whose application metadata says admin and whose user
    metadata says doctor. *)
Definition admin_by_app : AuthUser.t :=
  AuthUser.mk "u-1" (Some "grace@clinic.example")
    (Some (UserMetadata.mk (Some "Grace") None (Some "doctor")))
    (Some (AppMetadata.mk (Some "admin")))
    (Some "2024-01-01T00:00:00Z").

(** An identity with no metadata at all. *)
Definition bare_user : AuthUser.t :=
  AuthUser.mk "u-2" (Some "sam@clinic.example") None None None.

Definition admin_profile : Profile.t :=
  Profile.mk (Some "Ada Admin") (Some "ada@clinic.example") (Some "admin")
    None None None None None None None None None.

(** A table of fifteen rows; a row is its number. *)
Definition fifteen_rows : list Z :=
  [0; 1; 2; 3; 4; 5; 6; 7; 8; 9; 10; 11; 12; 13; 14]%Z.

Definition row_matches (column : string) (value row : Z) : bool :=
  Z.eqb value row.

(** Descending on the first sort key reverses the table, which is
    stored ascending. *)
Definition sort_rows (keys : list (string * bool)) (rows : list Z) : list Z :=
  match keys with
  | (_, false) :: _ => rev rows
  | _ => rows
  end.

(** A client that serves select queries from [rows] and answers every
    other request with [failure] (success when [None]). *)
Definition table_client (rows : list Z) (failure : option RemoteError)
  : Client Z Z unit :=
  mkClient
    (fun _ row => mkResponse (match failure with None => Some row | _ => None end) failure)
    (fun _ row _ => mkResponse (match failure with None => Some row | _ => None end) failure)
    (fun _ _ => mkResponse None failure)
    (fun _ _ => mkResponse None failure)
    (Postgrest.answer row_matches sort_rows rows)
    (fun _ p _ _ =>
       mkResponse (match failure with None => Some (mkUploadData p) | _ => None end)
                  failure)
    (fun _ _ => mkResponse None failure)
    (fun bucket p => ("https://storage.example/" ++ bucket ++ "/" ++ p)%string).

(** A client whose every request fails with [e]. *)
Definition failing_client (e : RemoteError) : Client Z Z unit :=
  mkClient
    (fun _ _ => mkResponse None (Some e))
    (fun _ _ _ => mkResponse None (Some e))
    (fun _ _ => mkResponse None (Some e))
    (fun _ _ => mkResponse None (Some e))
    (fun _ => mkResponse None (Some e))
    (fun _ _ _ _ => mkResponse None (Some e))
    (fun _ _ => mkResponse None (Some e))
    (fun bucket p => ("https://storage.example/" ++ bucket ++ "/" ++ p)%string).

Definition no_rows : RemoteError :=
  mkRemoteError (Some "JSON object requested, multiple (or no) rows returned")
                (Some "PGRST116").

Definition denied : RemoteError :=
  mkRemoteError (Some "permission denied for table profiles") (Some "42501").

Definition silent : RemoteError := mkRemoteError None None.

(** A remote auth service that knows one account. *)
Definition one_account (c : UseSupabaseAuth.SignInData)
  : Response AuthUser.t :=
  if (String.eqb (UseSupabaseAuth.email c) "sam@clinic.example"
      && String.eqb (UseSupabaseAuth.password c) "correct horse")%bool
  then mkResponse (Some bare_user) None
  else mkResponse None
         (Some (mkRemoteError (Some "Invalid login credentials")
                              (Some "invalid_credentials"))).

Definition signed_out : UseSupabaseAuth.HookState :=
  UseSupabaseAuth.mkHookState None None false None.

End Fixtures.

(* ===================================================================== *)
(** ** [src/config/supabase.ts]: session helpers and realtime subscriptions *)
(* ===================================================================== *)

Module SupabaseAuth.

(** [isAuthenticated]: [!!session] of what [auth.getSession()] gives. *)
Definition isAuthenticated {Session : Type} (session : option Session) : bool :=
  match session with
  | Some _ => true
  | None => false
  end.

(** [signOut], given what [auth.signOut()] settles to. *)
Definition signOut (r : Supabase.Response unit) : Outcome unit :=
  Supabase.rethrow r (Returned tt).

End SupabaseAuth.

Module Realtime.

(** The second argument of [.on('postgres_changes', ...)]. *)
Record PostgresChanges : Type := mkPostgresChanges {
  event : string;
  schema : string;
  table : string;
  filter : JS.jstring
}.

(** A channel as [subscribeToTable] sets it up: its name, the listener
    registered with [.on], and whether [.subscribe()] was called. *)
Record Channel (Callback : Type) : Type := mkChannel {
  name : string;
  listens_to : string;
  changes : PostgresChanges;
  callback : Callback;
  subscribed : bool
}.

Arguments mkChannel {Callback} name listens_to changes callback subscribed.
Arguments name {Callback} c.
Arguments listens_to {Callback} c.
Arguments changes {Callback} c.
Arguments callback {Callback} c.
Arguments subscribed {Callback} c.

Definition subscribeToTable {Callback : Type}
  (table : string) (callback : Callback) (filter : JS.jstring)
  : Channel Callback :=
  mkChannel (table ++ "_changes") "postgres_changes"
    (mkPostgresChanges "*" "public" table filter) callback true.

End Realtime.

(* ===================================================================== *)
(** ** [src/hooks/useAuth.tsx]: registration *)
(* ===================================================================== *)

Module SignUp.
(** The argument of [signUp], as its callers build it. *)
Record t : Type := mk {
  email : string;
  password : string;
  fullName : string;
  role : string;
  phone : JS.jstring;
  dateOfBirth : JS.jstring;
  gender : JS.jstring;
  medicalLicense : JS.jstring;
  specialization : JS.jstring;
  department : JS.jstring
}.
End SignUp.

Module AdditionalData.
Record t : Type := mk {
  phone : JS.jstring;
  dateOfBirth : JS.jstring;
  gender : JS.jstring;
  medicalLicense : JS.jstring;
  specialization : JS.jstring;
  department : JS.jstring
}.
End AdditionalData.

Module UseAuthRegister.

(** [register]: the success flag of [signUp], [false] when it throws. *)
Definition register
  (signUp : SignUp.t -> Outcome UseSupabaseAuth.AuthResult)
  (name email password : string) (role : string)
  (additionalData : option AdditionalData.t) : bool :=
  match signUp
          (SignUp.mk email password name role
             (JS.opt_get additionalData AdditionalData.phone)
             (JS.opt_get additionalData AdditionalData.dateOfBirth)
             (JS.opt_get additionalData AdditionalData.gender)
             (JS.opt_get additionalData AdditionalData.medicalLicense)
             (JS.opt_get additionalData AdditionalData.specialization)
             (JS.opt_get additionalData AdditionalData.department))
  with
  | Returned result => UseSupabaseAuth.success result
  | Thrown _ => false
  end.

End UseAuthRegister.

(* ===================================================================== *)
(** ** [src/pages/auth/LoginPage.tsx] *)
(* ===================================================================== *)

Module LoginPage.

(** What an awaited call settles to, as the page sees it: a value, or a
    thrown [err] of which only [err.message] is read. *)
Inductive Settled (T : Type) : Type :=
| Resolved (value : T)
| Rejected (err_message : JS.jstring).

Arguments Resolved {T} value.
Arguments Rejected {T} err_message.

(** The [useState] cells of the page. *)
Record State : Type := mkState {
  email : string;
  password : string;
  showPassword : bool;
  error : JS.jstring;
  success : JS.jstring;
  isLoading : bool
}.

(** [setTimeout(() => navigate(path), delay)]. *)
Inductive Effect : Type :=
| NavigateAfter (path : string) (delay_ms : Z).

Definition handleSubmit
  (signIn : UseSupabaseAuth.SignInData -> Settled UseSupabaseAuth.AuthResult)
  (st : State) : State * list Effect :=
  (* setError(null); setSuccess(null); setIsLoading(true) *)
  let credentials := UseSupabaseAuth.mkSignInData (email st) (password st) in
  let '(error', success', effects) :=
    (* Use Supabase auth directly for better error messages *)
    match signIn credentials with
    | Resolved result =>
        if UseSupabaseAuth.success result then
          (None, Some (UseSupabaseAuth.message result),
           [NavigateAfter "/dashboard" 1000])
        else (Some (UseSupabaseAuth.message result), None, [])
    | Rejected err_message =>
        (Some (JS.or_str err_message
                 "An error occurred. Please try again later."),
         None, [])
    end in
  (* finally: setIsLoading(false) *)
  (mkState (email st) (password st) (showPassword st) error' success' false,
   effects).

Definition togglePasswordVisibility (st : State) : State :=
  mkState (email st) (password st) (negb (showPassword st))
          (error st) (success st) (isLoading st).



Definition patient_demo : SignUp.t :=
  SignUp.mk "patient@telemedicine.demo" "demo123456" "Demo Patient" "patient"
    None None None None None None.

Definition doctor_demo : SignUp.t :=
  SignUp.mk "doctor@telemedicine.demo" "demo123456" "Dr. Demo Doctor" "doctor"
    None None None (Some "DEMO123456") (Some "General Medicine") None.

Definition admin_demo : SignUp.t :=
  SignUp.mk "admin@telemedicine.demo" "demo123456" "Demo Administrator" "admin"
    None None None None None None.

Definition demo_accounts : list SignUp.t :=
  [patient_demo; doctor_demo; admin_demo].


End LoginPage.

(* ===================================================================== *)
(** ** Visiting a route of the table of [App] *)
(* ===================================================================== *)

Module Routing.

(** A URL is served by a leaf route; its parents render around it.  The
    entry keeps the innermost guard element above the leaf. *)
Record Access : Type := mkAccess {
  route_path : string;
  route_page : App.Element;
  guard : option Guard.ProtectedRouteProps
}.

Fixpoint access_under (parent : string)
  (above : option Guard.ProtectedRouteProps) (n : App.RouteNode)
  : list Access :=
  match n with
  | App.Route p el children =>
      let here :=
        match p with
        | App.Path q => App.join_paths parent q
        | App.Index | App.Pathless => parent
        end in
      let inner :=
        match el with
        | App.ProtectedRoute props => Some props
        | _ => above
        end in
      match children with
      | [] =>
          match p with
          | App.Pathless => []
          | App.Index | App.Path _ => [mkAccess here el above]
          end
      | _ :: _ => flat_map (access_under here inner) children
      end
  end.

Definition access (table : list App.RouteNode) : list Access :=
  flat_map (access_under "" None) table.

(** What a visitor of a path gets. *)
Inductive Visit : Type :=
| AppLoading
| GuardLoading
| RedirectTo (to : string)
| Page (element : App.Element)
| NoMatch.

Definition visit (view : App.View) (path : string) : Visit :=
  match view with
  | App.LoadingScreen => AppLoading
  | App.Routes table =>
      match find (fun a => String.eqb (route_path a) path) (access table) with
      | None => NoMatch
      | Some a =>
          match guard a with
          | None => Page (route_page a)
          | Some props =>
              match Guard.ProtectedRoute props with
              | Guard.LoadingSpinner => GuardLoading
              | Guard.Navigate to _ => RedirectTo to
              | Guard.Outlet => Page (route_page a)
              end
          end
      end
  end.



End Routing.

(* ===================================================================== *)
(** ** Vocabulary for the properties of the helpers and of the view *)
(* ===================================================================== *)

Module Reading.

(** The rows a call of [getRecords] delivered; none when it threw or
    returned null. *)
Definition rows_of {Row : Type} (o : Outcome (option (list Row))) : list Row :=
  match o with
  | Returned (Some rows) => rows
  | _ => []
  end.

(** The four values of the [UserRole] enum. *)
Definition is_UserRole (s : string) : bool :=
  (String.eqb s Supabase.PATIENT || String.eqb s Supabase.DOCTOR
   || String.eqb s Supabase.ADMIN || String.eqb s Supabase.NURSE)%bool.

(** A role property that is absent or holds a value of the enum. *)
Definition role_well_typed (r : JS.jstring) : bool :=
  match r with
  | Some s => is_UserRole s
  | None => true
  end.

(** An optional property that is absent or a non-empty string. *)
Definition absent_or_nonempty (v : JS.jstring) : bool :=
  match v with
  | Some s => JS.nonempty s
  | None => true
  end.

(** The optional properties of the derived user view. *)
Definition optional_fields (u : User.t) : list JS.jstring :=
  [ User.avatar u; User.phone u; User.dateOfBirth u; User.gender u;
    User.medicalLicense u; User.specialization u; User.department u;
    User.lastActive u ].


End Reading.

(* ===================================================================== *)
(** * Properties *)
(* ===================================================================== *)

(** ** Truthiness and fallbacks *)

Lemma nonempty_true_iff (s : string) : JS.nonempty s = true <-> s <> "".
Proof.
  destruct s; simpl; split; intro H; congruence.
Qed.

Lemma or_str_nonempty (a : JS.jstring) (b : string) :
  JS.nonempty b = true -> JS.nonempty (JS.or_str a b) = true.
Proof.
  intro Hb. unfold JS.or_str.
  destruct a as [s|]; [destruct (JS.nonempty s) eqn:E|]; assumption.
Qed.

(** A chain [c1 || c2 || ... || 'literal'] is the first present candidate,
    or the literal. *)
Ltac case_truthy :=
  repeat match goal with
         | |- context [JS.nonempty ?x] =>
             let E := fresh "E" in destruct (JS.nonempty x) eqn:E; simpl
         end.

Lemma or_chain2 (a b : JS.jstring) (d : string) :
  JS.or_str (JS.or a b) d = Precedence.resolve [a; b] d.
Proof.
  unfold Precedence.resolve, JS.or, JS.or_str.
  destruct a, b; simpl; case_truthy; congruence.
Qed.

Lemma or_chain3 (a b c : JS.jstring) (d : string) :
  JS.or_str (JS.or (JS.or a b) c) d = Precedence.resolve [a; b; c] d.
Proof.
  unfold Precedence.resolve, JS.or, JS.or_str.
  destruct a, b, c; simpl; case_truthy; congruence.
Qed.

(** [split_head] cuts at the first separator: the head has no separator
    and the rest is empty or starts with one. *)
Lemma split_head_cut (sep : ascii) (s : string) :
  Precedence.occurs sep (JS.split_head sep s) = false
  /\ exists rest,
       s = (JS.split_head sep s ++ rest)%string
       /\ (rest = "" \/ exists r, rest = String sep r).
Proof.
  induction s as [|c s [IHocc [rest [IHeq IHrest]]]]; simpl.
  - split; [reflexivity|]. exists "". split; [reflexivity | left; reflexivity].
  - destruct (Ascii.eqb c sep) eqn:E; simpl.
    + split; [reflexivity|].
      apply Ascii.eqb_eq in E. subst c.
      exists (String sep s). split; [reflexivity|].
      right. exists s. reflexivity.
    + rewrite E, IHocc. split; [reflexivity|].
      exists rest. split; [|exact IHrest].
      rewrite <- IHeq. reflexivity.
Qed.

(** ** The derived user view *)

Example derive_user_no_profile :
  option_map User.name (UseAuth.derive_user (Some Fixtures.bare_user) None)
  = Some "sam".
Proof. reflexivity. Qed.

Example derive_user_admin_profile :
  option_map User.role
    (UseAuth.derive_user (Some Fixtures.bare_user) (Some Fixtures.admin_profile))
  = Some "admin".
Proof. reflexivity. Qed.

(** C1, as stated, fails: with application metadata role admin, user
    metadata role doctor and no profile row, the derived view shows
    doctor, where the claimed precedence gives admin. *)
Lemma derived_role_ignores_app_metadata :
  option_map User.role (UseAuth.derive_user (Some Fixtures.admin_by_app) None)
  = Some "doctor"
  /\ Precedence.claimed_role Fixtures.admin_by_app None = "admin"
  /\ option_map User.role (UseAuth.derive_user (Some Fixtures.admin_by_app) None)
     <> Some (Precedence.claimed_role Fixtures.admin_by_app None).
Proof.
  repeat split; try reflexivity. vm_compute. discriminate.
Qed.

(** C1, amended: the role on the derived user view is the profile row's
    role, then the identity's user-metadata role, then "patient"; the
    application metadata does not enter it.  The application-level role is
    consulted by [getUserRole] only, which resolves application metadata
    role, then user metadata role, then null. *)
Theorem derived_role_precedence :
  forall (id : string) (email created_at : JS.jstring)
         (user_metadata : option Supabase.UserMetadata.t)
         (app_metadata app_metadata' : option Supabase.AppMetadata.t)
         (profile : option Profile.t),
    let u := Supabase.AuthUser.mk id email user_metadata app_metadata created_at in
    let u' := Supabase.AuthUser.mk id email user_metadata app_metadata' created_at in
    option_map User.role (UseAuth.derive_user (Some u) profile)
    = Some (Precedence.resolve
              [ JS.opt_get profile Profile.role;
                JS.opt_get user_metadata Supabase.UserMetadata.role ]
              "patient")
    /\ UseAuth.derive_user (Some u) profile = UseAuth.derive_user (Some u') profile
    /\ Supabase.getUserRole (Some u)
       = Precedence.first_present
           [ JS.opt_get app_metadata Supabase.AppMetadata.role;
             JS.opt_get user_metadata Supabase.UserMetadata.role ]
    /\ Supabase.getUserRole None = None.
Proof.
  intros id email created_at um am am' profile u u'.
  split; [|split; [|split]].
  - simpl. rewrite or_chain2. reflexivity.
  - reflexivity.
  - simpl. unfold JS.or.
    destruct (JS.truthy (JS.opt_get am Supabase.AppMetadata.role)) eqn:Ea; simpl.
    + rewrite Ea. reflexivity.
    + destruct (JS.truthy (JS.opt_get um Supabase.UserMetadata.role)) eqn:Eu;
        simpl; try rewrite Eu; reflexivity.
  - reflexivity.
Qed.

(** C10: the derived user view is total in its fallbacks.  The name is the
    profile's full name, else the auth metadata full name, else the part
    of the email before the at sign, else "User", and is never empty; the
    email is the profile's, else the auth email, else the empty string;
    a view exists for every auth user, and [isAuthenticated] holds exactly
    when the auth user has a non-empty id, whatever the profile row. *)
Theorem derived_view_fallbacks :
  forall (u : Supabase.AuthUser.t) (profile : option Profile.t),
  exists view : User.t,
    UseAuth.derive_user (Some u) profile = Some view
    /\ User.id view = Supabase.AuthUser.id u
    /\ User.name view
       = Precedence.resolve
           [ JS.opt_get profile Profile.full_name;
             JS.opt_get (Supabase.AuthUser.user_metadata u)
                        Supabase.UserMetadata.full_name;
             UseAuth.email_local_part (Supabase.AuthUser.email u) ]
           "User"
    /\ JS.nonempty (User.name view) = true
    /\ (forall e, Supabase.AuthUser.email u = Some e ->
          exists local rest,
            UseAuth.email_local_part (Supabase.AuthUser.email u) = Some local
            /\ e = (local ++ rest)%string
            /\ Precedence.occurs "@" local = false
            /\ (rest = "" \/ exists r, rest = String "@" r))
    /\ User.email view
       = Precedence.resolve
           [ JS.opt_get profile Profile.email; Supabase.AuthUser.email u ] ""
    /\ UseAuth.isAuthenticated (Some u) = JS.nonempty (Supabase.AuthUser.id u)
    /\ (forall loading error,
          UseAuth.ctx_isAuthenticated
            (UseAuth.AuthProvider
               (UseSupabaseAuth.mkHookState (Some u) None loading error))
          = JS.nonempty (Supabase.AuthUser.id u)).
Proof.
  intros u profile. eexists. split; [reflexivity|].
  simpl. repeat split.
  - apply or_chain3.
  - apply or_str_nonempty. reflexivity.
  - intros e He. rewrite He. simpl.
    destruct (split_head_cut "@" e) as [Hocc [rest [Heq Hrest]]].
    exists (JS.split_head "@" e), rest. repeat split; assumption.
  - apply or_chain2.
Qed.

(** The claim C10 at a user without profile row and without metadata. *)
Lemma derived_view_fallbacks_witness :
  Supabase.AuthUser.email Fixtures.bare_user = Some "sam@clinic.example"
  /\ exists view : User.t,
       UseAuth.derive_user (Some Fixtures.bare_user) None = Some view
       /\ User.name view = "sam".
Proof.
  split; [reflexivity|].
  destruct (derived_view_fallbacks Fixtures.bare_user None)
    as [view [Hview [_ [Hname _]]]].
  exists view. split; [exact Hview|]. rewrite Hname. reflexivity.
Defined.

(** ** The route guard *)

(** C2: whatever the authentication value, the guard renders the loading
    state when loading is true; with loading false (or omitted) it
    redirects to the login path when no session is present and renders
    the protected children when one is. *)
Theorem ProtectedRoute_three_states :
  forall (isAuthenticated : bool) (redirectPath : JS.jstring),
    Guard.ProtectedRoute (Guard.mkProps isAuthenticated (Some true) redirectPath)
    = Guard.LoadingSpinner
    /\ Guard.ProtectedRoute (Guard.mkProps false (Some false) redirectPath)
       = Guard.Navigate (Guard.default redirectPath "/login") true
    /\ Guard.ProtectedRoute (Guard.mkProps false (Some false) None)
       = Guard.Navigate "/login" true
    /\ Guard.ProtectedRoute (Guard.mkProps true (Some false) redirectPath)
       = Guard.Outlet
    /\ Guard.ProtectedRoute (Guard.mkProps isAuthenticated None redirectPath)
       = Guard.ProtectedRoute
           (Guard.mkProps isAuthenticated (Some false) redirectPath)
    /\ Guard.ProtectedRoute
         (Guard.mkProps (UseAuth.isAuthenticated None) (Some false) redirectPath)
       = Guard.Navigate (Guard.default redirectPath "/login") true.
Proof.
  intros isAuthenticated redirectPath.
  unfold Guard.ProtectedRoute; simpl.
  repeat split; reflexivity.
Qed.

(** The guard has no fourth state, and which one it is in depends only on
    the pair (loading, isAuthenticated). *)
Lemma ProtectedRoute_cases (props : Guard.ProtectedRouteProps) :
  Guard.ProtectedRoute props
  = match Guard.default (Guard.loading props) false,
          Guard.isAuthenticated props with
    | true, _ => Guard.LoadingSpinner
    | false, false =>
        Guard.Navigate (Guard.default (Guard.redirectPath props) "/login") true
    | false, true => Guard.Outlet
    end.
Proof.
  unfold Guard.ProtectedRoute.
  destruct (Guard.default (Guard.loading props) false),
           (Guard.isAuthenticated props); reflexivity.
Qed.

(** ** The route table *)

Example route_surface_for_a_patient :
  map App.full_path
    (App.mounted_view (App.App (UseAuth.mkAuthContext None false false None)))
  = [ "/"; "/"; "/login"; "/register"; "/auth/verify"; "/auth/confirm";
      "/verify"; "/reset-password"; "/auth/reset-password";
      "/dashboard"; "/appointments"; "/consultation/:id"; "/medical-records";
      "/chat"; "/chat/:channelUrl"; "/chatbot"; "/prescriptions";
      "/notifications"; "/profile" ].
Proof. reflexivity. Qed.

Lemma isAdmin_iff (user : option User.t) :
  App.isAdmin user = true <-> exists u, user = Some u /\ User.role u = "admin".
Proof.
  unfold App.isAdmin. destruct user as [u|].
  - rewrite String.eqb_eq. split.
    + intro H. exists u. split; [reflexivity | exact H].
    + intros [u' [Hu Hr]]. injection Hu as ->. exact Hr.
  - split; [discriminate|]. intros [u [Hu _]]. discriminate.
Qed.

Lemma App_admin_route (ctx : UseAuth.AuthContextType) (below_guard : bool) :
  App.has_route "/admin" below_guard (App.App ctx)
  = (negb (UseAuth.loading ctx) && App.isAdmin (UseAuth.user ctx)
     && below_guard)%bool.
Proof.
  destruct ctx as [user auth loading error]. unfold App.App. simpl.
  destruct loading, (App.isAdmin user), below_guard; reflexivity.
Qed.

Lemma App_loaded (ctx : UseAuth.AuthContextType) (table : list App.RouteNode) :
  App.App ctx = App.Routes table -> UseAuth.loading ctx = false.
Proof.
  unfold App.App. destruct (UseAuth.loading ctx); [discriminate | reflexivity].
Qed.

(** C8: in every rendered route table the /admin route is mounted below
    the guard exactly when the derived user's role is admin; it is never
    mounted outside the guard, so for any other role (and for no user)
    the table has no /admin route at all. *)
Theorem admin_route_iff_admin :
  forall (ctx : UseAuth.AuthContextType) (table : list App.RouteNode),
    App.App ctx = App.Routes table ->
    (App.has_route "/admin" true (App.Routes table) = true
       <-> exists u, UseAuth.user ctx = Some u /\ User.role u = "admin")
    /\ App.has_route "/admin" false (App.Routes table) = false
    /\ (forall u, UseAuth.user ctx = Some u -> User.role u <> "admin" ->
          forall below_guard,
            App.has_route "/admin" below_guard (App.Routes table) = false)
    /\ (App.isAdmin (UseAuth.user ctx) = true ->
          In (App.mkMounted "/admin" App.AdminDashboard true) (App.mounted table)).
Proof.
  intros ctx table H.
  pose proof (App_loaded ctx table H) as Hl.
  split; [|split; [|split]].
  - rewrite <- H, App_admin_route, Hl. simpl.
    rewrite Bool.andb_true_r. apply isAdmin_iff.
  - rewrite <- H, App_admin_route, Hl. simpl. apply Bool.andb_false_r.
  - intros u Hu Hrole below_guard.
    rewrite <- H, App_admin_route, Hu. simpl.
    apply String.eqb_neq in Hrole. rewrite Hrole.
    rewrite Bool.andb_false_r. reflexivity.
  - intro Hadm. destruct ctx as [user auth loading error].
    unfold App.App in H. simpl in *. subst loading.
    injection H as <-. rewrite Hadm. vm_compute. tauto.
Qed.

(** The claim C8 at an admin by profile row. *)
Lemma admin_route_iff_admin_witness :
  App.has_route "/admin" true
    (App.App (UseAuth.AuthProvider
                (UseSupabaseAuth.mkHookState
                   (Some Fixtures.bare_user) (Some Fixtures.admin_profile)
                   false None))) = true.
Proof.
  pose proof
    (admin_route_iff_admin
       (UseAuth.AuthProvider
          (UseSupabaseAuth.mkHookState
             (Some Fixtures.bare_user) (Some Fixtures.admin_profile) false None))
       _ eq_refl) as [Hiff _].
  apply Hiff. eexists. split; reflexivity.
Defined.

(** ** Error handling of the backend-access helpers *)

Section HelperErrors.

Context {Row Value File : Type}.
Variable supabase : Supabase.Client Row Value File.

Lemma rethrow_error {A B : Type}
  (r : Supabase.Response A) (k : Outcome B) (e : Supabase.RemoteError) :
  Supabase.error r = Some e ->
  Supabase.rethrow r k = Supabase.handleSupabaseError e.
Proof.
  intro H. unfold Supabase.rethrow. rewrite H. reflexivity.
Qed.

Lemma handleSupabaseError_shape {T : Type} (e : Supabase.RemoteError) :
  @Supabase.handleSupabaseError T e
  = Thrown (SupabaseError
              (Precedence.resolve [Supabase.message e] Supabase.default_message)
              (Supabase.code e)).
Proof.
  unfold Supabase.handleSupabaseError, Precedence.resolve, JS.or_str.
  destruct (Supabase.message e) as [m|]; simpl; [destruct (JS.nonempty m)|];
    reflexivity.
Qed.

(** C4: on a single-row fetch a remote error with code PGRST116 is not
    surfaced: [getRecord] returns the response's data, which is null on
    a failure response; it throws exactly when the remote error has any
    other code (or none), and then throws the structured error. *)
Theorem getRecord_suppresses_no_rows :
  forall (table id : string),
    let r := Supabase.select_eq_single supabase table id in
    (forall e, Supabase.error r = Some e ->
               Supabase.code e = Some "PGRST116" ->
               Supabase.getRecord supabase table id = Returned (Supabase.data r)
               /\ (Supabase.data r = None ->
                   Supabase.getRecord supabase table id = Returned None))
    /\ (forall e, Supabase.error r = Some e ->
                  Supabase.code e <> Some "PGRST116" ->
                  Supabase.getRecord supabase table id
                  = Thrown (SupabaseError
                              (JS.or_str (Supabase.message e)
                                         Supabase.default_message)
                              (Supabase.code e)))
    /\ (Supabase.error r = None ->
        Supabase.getRecord supabase table id = Returned (Supabase.data r))
    /\ (is_thrown (Supabase.getRecord supabase table id) = true
        <-> exists e, Supabase.error r = Some e
                      /\ Supabase.code e <> Some "PGRST116").
Proof.
  intros table id r. unfold Supabase.getRecord. fold r.
  split; [|split; [|split]].
  - intros e He Hc. rewrite He, Hc. simpl. split; [reflexivity|].
    intro Hd. rewrite Hd. reflexivity.
  - intros e He Hc. rewrite He.
    unfold Supabase.handleSupabaseError.
    destruct (Supabase.code e) as [c|] eqn:Ec; [|reflexivity].
    destruct (String.eqb c "PGRST116") eqn:E; [|reflexivity].
    apply String.eqb_eq in E. subst c. congruence.
  - intro He. rewrite He. reflexivity.
  - destruct (Supabase.error r) as [e|] eqn:He.
    + destruct (Supabase.code e) as [c|] eqn:Ec.
      * destruct (String.eqb c "PGRST116") eqn:E; simpl.
        -- apply String.eqb_eq in E. subst c.
           split; [discriminate|].
           intros [e' [He' Hc']]. injection He' as <-. congruence.
        -- split; [|reflexivity]. intros _. exists e. split; [reflexivity|].
           rewrite Ec. intro Heq. injection Heq as ->.
           rewrite String.eqb_refl in E. discriminate.
      * simpl. split; [|reflexivity]. intros _. exists e.
        split; [reflexivity|]. rewrite Ec. discriminate.
    + simpl. split; [discriminate|]. intros [e [He' _]]. discriminate.
Qed.

(** C6: when the remote call of a helper fails, the helper throws the
    structured error: its message is the remote message, or the default
    text when the remote message is absent or empty, and its code is the
    remote code, absent when the remote one is; nothing else of the remote
    error enters it. *)
Theorem helpers_throw_structured_error :
  forall (e : Supabase.RemoteError),
    let thrown :=
      SupabaseError
        (Precedence.resolve [Supabase.message e] Supabase.default_message)
        (Supabase.code e) in
    (forall table data_,
        Supabase.error (Supabase.insert_select_single supabase table data_) = Some e ->
        Supabase.createRecord supabase table data_ = Thrown thrown)
    /\ (forall table id data_,
        Supabase.error (Supabase.update_eq_select_single supabase table data_ id)
        = Some e ->
        Supabase.updateRecord supabase table id data_ = Thrown thrown)
    /\ (forall table id,
        Supabase.error (Supabase.delete_eq supabase table id) = Some e ->
        Supabase.deleteRecord supabase table id = Thrown thrown)
    /\ (forall table query,
        Supabase.error
          (Supabase.await_select supabase (Supabase.getRecords_builder table query))
        = Some e ->
        Supabase.getRecords supabase table query = Thrown thrown)
    /\ (forall bucket path_ file options,
        Supabase.error (Supabase.storage_upload supabase bucket path_ file options)
        = Some e ->
        Supabase.uploadFile supabase bucket path_ file options = Thrown thrown)
    /\ (forall bucket path_,
        Supabase.error (Supabase.storage_remove supabase bucket [path_]) = Some e ->
        Supabase.deleteFile supabase bucket path_ = Thrown thrown)
    /\ JS.nonempty
         (Precedence.resolve [Supabase.message e] Supabase.default_message)
       = true.
Proof.
  intros e thrown. subst thrown.
  repeat split; intros;
    try (unfold Supabase.createRecord, Supabase.updateRecord,
           Supabase.deleteRecord, Supabase.getRecords, Supabase.uploadFile,
           Supabase.deleteFile;
         cbv zeta;
         erewrite rethrow_error by eassumption;
         apply handleSupabaseError_shape).
  unfold Precedence.resolve. simpl.
  destruct (Supabase.message e) as [m|]; simpl; [|reflexivity].
  destruct (JS.nonempty m) eqn:E; simpl; [exact E | reflexivity].
Qed.

End HelperErrors.

(** The claim C4 at a client that reports "no rows" and at one that
    reports a permission error. *)
Lemma getRecord_suppresses_no_rows_witness :
  Supabase.getRecord (Fixtures.failing_client Fixtures.no_rows) "profiles" "42"
  = Returned None
  /\ Supabase.getRecord (Fixtures.failing_client Fixtures.denied) "profiles" "42"
     = Thrown (SupabaseError "permission denied for table profiles"
                             (Some "42501")).
Proof.
  destruct (getRecord_suppresses_no_rows
              (Fixtures.failing_client Fixtures.no_rows) "profiles" "42")
    as [Hnone _].
  destruct (getRecord_suppresses_no_rows
              (Fixtures.failing_client Fixtures.denied) "profiles" "42")
    as [_ [Hother _]].
  split.
  - apply (Hnone Fixtures.no_rows); reflexivity.
  - apply (Hother Fixtures.denied); [reflexivity | discriminate].
Defined.

(** The claim C6 at a client whose error has neither message nor code. *)
Lemma helpers_throw_structured_error_witness :
  Supabase.createRecord (Fixtures.failing_client Fixtures.silent) "profiles" 7%Z
  = Thrown (SupabaseError "An unexpected error occurred" None)
  /\ Supabase.uploadFile (Fixtures.failing_client Fixtures.denied)
       "avatars" "u-1.png" tt None
     = Thrown (SupabaseError "permission denied for table profiles"
                             (Some "42501")).
Proof.
  split.
  - apply (helpers_throw_structured_error
             (Fixtures.failing_client Fixtures.silent) Fixtures.silent).
    reflexivity.
  - apply (helpers_throw_structured_error
             (Fixtures.failing_client Fixtures.denied) Fixtures.denied).
    reflexivity.
Defined.

(** ** The query of [getRecords] *)

Section GetRecordsQuery.

Context {Value : Type}.

Implicit Types (select : JS.jstring) (filter : option (list (string * Value))).
Implicit Types (order : option Supabase.OrderBy) (limit offset : option Z).

Import Paging.

Lemma fold_chain_calls (entries : list (string * Value))
  (qb : Supabase.Builder Value) :
  Supabase.calls
    (fold_left (fun qb kv => Supabase.chain qb (Supabase.Eq (fst kv) (snd kv)))
               entries qb)
  = Supabase.calls qb
    ++ map (fun kv => Supabase.Eq (fst kv) (snd kv)) entries.
Proof.
  revert qb. induction entries as [|kv entries IH]; intro qb; simpl.
  - rewrite app_nil_r. reflexivity.
  - rewrite IH. simpl. rewrite <- app_assoc. reflexivity.
Qed.

Lemma unpaged_has_no_paging table select filter order :
  existsb is_paging (Supabase.calls (unpaged table select filter order)) = false.
Proof.
  unfold unpaged, Supabase.getRecords_builder. simpl.
  assert (Hf : forall qb : Supabase.Builder Value,
             existsb is_paging (Supabase.calls qb) = false ->
             existsb is_paging
               (Supabase.calls
                  match filter with
                  | Some entries =>
                      fold_left
                        (fun qb kv =>
                           Supabase.chain qb (Supabase.Eq (fst kv) (snd kv)))
                        entries qb
                  | None => qb
                  end) = false).
  { intros qb Hqb. destruct filter as [entries|]; [|exact Hqb].
    rewrite fold_chain_calls, existsb_app, Hqb. simpl.
    induction entries as [|kv entries IH]; simpl; [reflexivity | exact IH]. }
  destruct order as [o|]; simpl.
  - rewrite existsb_app, Hf; reflexivity.
  - apply Hf. reflexivity.
Qed.

Lemma request_of_chain (b : Supabase.Builder Value) (m : Supabase.Modifier Value) :
  Postgrest.request_of (Supabase.chain b m)
  = Postgrest.apply_modifier (Postgrest.request_of b) m.
Proof.
  unfold Postgrest.request_of, Supabase.chain. simpl.
  rewrite fold_left_app. reflexivity.
Qed.

Lemma request_of_no_paging (calls : list (Supabase.Modifier Value))
  (r : Postgrest.Request Value) :
  existsb is_paging calls = false ->
  Postgrest.row_limit (fold_left Postgrest.apply_modifier calls r)
  = Postgrest.row_limit r
  /\ Postgrest.row_offset (fold_left Postgrest.apply_modifier calls r)
     = Postgrest.row_offset r.
Proof.
  revert r. induction calls as [|m calls IH]; intros r H; simpl.
  - split; reflexivity.
  - simpl in H. apply Bool.orb_false_iff in H as [Hm Hrest].
    destruct (IH (Postgrest.apply_modifier r m) Hrest) as [Hl Ho].
    rewrite Hl, Ho. destruct m; simpl in *; try discriminate; split; reflexivity.
Qed.

Lemma unpaged_request table select filter order :
  Postgrest.row_limit (Postgrest.request_of (unpaged table select filter order))
  = None
  /\ Postgrest.row_offset
       (Postgrest.request_of (unpaged table select filter order)) = None.
Proof.
  unfold Postgrest.request_of.
  apply (request_of_no_paging _ Postgrest.empty_request).
  apply unpaged_has_no_paging.
Qed.

(** How limit and offset extend the unpaged builder. *)
Lemma builder_paging table select filter order limit offset :
  Supabase.getRecords_builder table
    (Some (Supabase.mkQuery select filter order limit offset))
  = let qb := unpaged table select filter order in
    let qb :=
      match limit with
      | Some l => if Z.eqb l 0 then qb else Supabase.chain qb (Supabase.Limit l)
      | None => qb
      end in
    match offset with
    | Some off =>
        if Z.eqb off 0 then qb
        else Supabase.chain qb
               (Supabase.Range off (off + JS.or_num limit 10 - 1))
    | None => qb
    end.
Proof.
  unfold unpaged, Supabase.getRecords_builder. simpl.
  destruct limit as [l|], offset as [off|]; simpl;
    try destruct (Z.eqb l 0); try destruct (Z.eqb off 0); reflexivity.
Qed.


End GetRecordsQuery.


(** ** Pages of [getRecords] *)

Lemma firstn_add {A : Type} (a b : nat) (l : list A) :
  firstn (a + b) l = firstn a l ++ firstn b (skipn a l).
Proof.
  revert l. induction a as [|a IH]; intro l; simpl.
  - reflexivity.
  - destruct l as [|x l]; simpl.
    + rewrite firstn_nil. reflexivity.
    + rewrite IH. reflexivity.
Qed.



Section GetRecordsPages.

Context {Row Value File : Type}.

Variable row_matches : string -> Value -> Row -> bool.
Variable sort_rows : list (string * bool) -> list Row -> list Row.
Variable supabase : Supabase.Client Row Value File.
Variable rows : list Row.

Hypothesis served : Postgrest.serves row_matches sort_rows supabase rows.

Lemma getRecords_served table (query : option (Supabase.Query Value)) :
  Supabase.getRecords supabase table query
  = Returned
      (Some (Postgrest.run row_matches sort_rows
               (Postgrest.request_of (Supabase.getRecords_builder table query))
               rows)).
Proof.
  unfold Supabase.getRecords. rewrite served. reflexivity.
Qed.

Lemma run_paged table select filter order (l o : Z) :
  (l <> 0)%Z ->
  Postgrest.run row_matches sort_rows
    (Postgrest.request_of
       (Supabase.getRecords_builder table
          (Some (Supabase.mkQuery select filter order (Some l) (Some o)))))
    rows
  = Postgrest.slice o l
      (Postgrest.result_set row_matches sort_rows
         (Postgrest.request_of (Paging.unpaged table select filter order)) rows).
Proof.
  intro Hl. rewrite builder_paging. simpl.
  apply Z.eqb_neq in Hl. rewrite Hl.
  destruct (unpaged_request table select filter order) as [Hnl Hno].
  destruct (Z.eqb o 0) eqn:Ho.
  - apply Z.eqb_eq in Ho. subst o.
    rewrite request_of_chain. unfold Postgrest.run, Postgrest.paginate. simpl.
    rewrite Hno. reflexivity.
  - rewrite !request_of_chain. unfold Postgrest.run, Postgrest.paginate. simpl.
    replace (o + l - 1 - o + 1)%Z with l by lia. reflexivity.
Qed.


End GetRecordsPages.

Example getRecords_second_page_descending :
  Supabase.getRecords (Fixtures.table_client Fixtures.fifteen_rows None)
    "appointments"
    (Some (Supabase.mkQuery None None
             (Some (Supabase.mkOrderBy "id" (Some false)))
             (Some 4%Z) (Some 4%Z)))
  = Returned (Some [10; 9; 8; 7]%Z).
Proof. reflexivity. Qed.

Example getRecords_filtered :
  Supabase.getRecords (Fixtures.table_client Fixtures.fifteen_rows None)
    "appointments"
    (Some (Supabase.mkQuery None (Some [("id", 3%Z)]) None None None))
  = Returned (Some [3%Z]).
Proof. reflexivity. Qed.

Lemma table_client_serves (rows : list Z) (failure : option Supabase.RemoteError) :
  Postgrest.serves Fixtures.row_matches Fixtures.sort_rows
    (Fixtures.table_client rows failure) rows.
Proof.
  intro b. reflexivity.
Qed.



(** ** Sign-in *)

Example signIn_right_password :
  fst (fst (UseSupabaseAuth.signIn Fixtures.one_account Fixtures.signed_out
              (UseSupabaseAuth.mkSignInData "sam@clinic.example" "correct horse")))
  = UseSupabaseAuth.mkAuthResult true "Signed in successfully".
Proof. reflexivity. Qed.

(** C5: when the remote auth service rejects the credentials, [signIn]
    returns success = false with a non-empty message after exactly one
    request to the service, the session stays null, so the derived user
    stays absent and unauthenticated, and [login] returns false. *)
Theorem signIn_invalid_credentials :
  forall (signInWithPassword :
            UseSupabaseAuth.SignInData -> Supabase.Response Supabase.AuthUser.t)
         (st : UseSupabaseAuth.HookState)
         (credentials : UseSupabaseAuth.SignInData)
         (e : Supabase.RemoteError),
    Supabase.error (signInWithPassword credentials) = Some e ->
    UseSupabaseAuth.user st = None ->
    let out := UseSupabaseAuth.signIn signInWithPassword st credentials in
    let result := fst (fst out) in
    let st' := snd (fst out) in
    UseSupabaseAuth.success result = false
    /\ JS.nonempty (UseSupabaseAuth.message result) = true
    /\ snd out = [UseSupabaseAuth.SignInWithPassword credentials]
    /\ UseSupabaseAuth.user st' = None
    /\ UseAuth.user (UseAuth.AuthProvider st') = None
    /\ UseAuth.ctx_isAuthenticated (UseAuth.AuthProvider st') = false
    /\ UseAuth.login
         (fun c => Returned
                     (fst (fst (UseSupabaseAuth.signIn signInWithPassword st c))))
         (UseSupabaseAuth.email credentials)
         (UseSupabaseAuth.password credentials)
       = false.
Proof.
  intros signInWithPassword st credentials e He Hu out result st'.
  subst result st' out. unfold UseSupabaseAuth.signIn.
  rewrite He. simpl.
  split; [reflexivity|].
  split; [apply or_str_nonempty; reflexivity|].
  split; [reflexivity|].
  split; [exact Hu|].
  rewrite Hu. simpl.
  split; [reflexivity|]. split; [reflexivity|].
  unfold UseAuth.login, UseSupabaseAuth.signIn.
  destruct credentials as [email password]. simpl.
  rewrite He. reflexivity.
Qed.

(** The claim C5 at a wrong password for the one known account. *)
Lemma signIn_invalid_credentials_witness :
  fst (fst (UseSupabaseAuth.signIn Fixtures.one_account Fixtures.signed_out
              (UseSupabaseAuth.mkSignInData "sam@clinic.example" "guess")))
  = UseSupabaseAuth.mkAuthResult false "Invalid login credentials"
  /\ UseAuth.login
       (fun c => Returned
                   (fst (fst (UseSupabaseAuth.signIn Fixtures.one_account
                                Fixtures.signed_out c))))
       "sam@clinic.example" "guess"
     = false.
Proof.
  split; [reflexivity|].
  apply (signIn_invalid_credentials Fixtures.one_account Fixtures.signed_out
           (UseSupabaseAuth.mkSignInData "sam@clinic.example" "guess")
           (Supabase.mkRemoteError (Some "Invalid login credentials")
                                   (Some "invalid_credentials"))
           eq_refl eq_refl).
Defined.

(* ===================================================================== *)
(** * Further properties of the code *)
(* ===================================================================== *)

(** ** Outcomes of the helpers *)

Section HelperOutcomes.

Context {Row Value File : Type}.
Variable supabase : Supabase.Client Row Value File.

Lemma rethrow_thrown_iff {A B : Type} (r : Supabase.Response A) (v : B) :
  is_thrown (Supabase.rethrow r (Returned v)) = true
  <-> Supabase.error r <> None.
Proof.
  unfold Supabase.rethrow. destruct (Supabase.error r); simpl; split;
    congruence.
Qed.

(** X1: [uploadFile] returns only after a successful upload that reported
    a path, and then returns the public URL of the path the storage
    reported (not of the requested one); a response with neither error nor
    data makes it throw a TypeError; an error always wins over data. *)
Theorem uploadFile_outcomes :
  forall (bucket path_ : string) (file : File)
         (options : option Supabase.UploadOptions),
    let r := Supabase.storage_upload supabase bucket path_ file options in
    let out := Supabase.uploadFile supabase bucket path_ file options in
    (forall url, out = Returned url <->
       exists d, Supabase.error r = None /\ Supabase.data r = Some d
                 /\ url = Supabase.storage_getPublicUrl supabase bucket
                            (Supabase.path d))
    /\ (out = Thrown TypeError <->
        Supabase.error r = None /\ Supabase.data r = None)
    /\ (forall e, Supabase.error r = Some e ->
          exists m, out = Thrown (SupabaseError m (Supabase.code e)))
    /\ (is_thrown out = false <->
        Supabase.error r = None /\ Supabase.data r <> None).
Proof.
  intros bucket path_ file options r out. subst out.
  unfold Supabase.uploadFile, Supabase.rethrow, Supabase.handleSupabaseError.
  fold r.
  destruct (Supabase.error r) as [e|] eqn:He;
    destruct (Supabase.data r) as [d|] eqn:Hd; simpl.
  all: repeat split; intros; try discriminate; try congruence;
    repeat match goal with
           | H : exists _, _ |- _ => destruct H
           | H : _ /\ _ |- _ => destruct H
           | H : Some _ = Some _ |- _ => injection H as H; subst
           | H : Returned _ = Returned _ |- _ => injection H as H; subst
           end;
    try discriminate; try congruence; eauto.
Qed.

(** X2: the record helpers, [deleteFile] and [signOut] throw exactly when
    the remote reported an error; otherwise they hand back the remote
    data unchanged, which is null when the remote reported no data. *)
Theorem helpers_throw_iff_remote_error :
  (forall table data_,
      let r := Supabase.insert_select_single supabase table data_ in
      (is_thrown (Supabase.createRecord supabase table data_) = true
       <-> Supabase.error r <> None)
      /\ (Supabase.error r = None ->
          Supabase.createRecord supabase table data_
          = Returned (Supabase.data r)))
  /\ (forall table id data_,
      let r := Supabase.update_eq_select_single supabase table data_ id in
      (is_thrown (Supabase.updateRecord supabase table id data_) = true
       <-> Supabase.error r <> None)
      /\ (Supabase.error r = None ->
          Supabase.updateRecord supabase table id data_
          = Returned (Supabase.data r)))
  /\ (forall table query,
      let r := Supabase.await_select supabase
                 (Supabase.getRecords_builder table query) in
      (is_thrown (Supabase.getRecords supabase table query) = true
       <-> Supabase.error r <> None)
      /\ (Supabase.error r = None ->
          Supabase.getRecords supabase table query
          = Returned (Supabase.data r)))
  /\ (forall table id,
      is_thrown (Supabase.deleteRecord supabase table id) = true
      <-> Supabase.error (Supabase.delete_eq supabase table id) <> None)
  /\ (forall bucket path_,
      is_thrown (Supabase.deleteFile supabase bucket path_) = true
      <-> Supabase.error (Supabase.storage_remove supabase bucket [path_])
          <> None)
  /\ (forall r : Supabase.Response unit,
      is_thrown (SupabaseAuth.signOut r) = true <-> Supabase.error r <> None).
Proof.
  split; [|split; [|split; [|split; [|split]]]].
  - intros table data_ r. split; [apply rethrow_thrown_iff|].
    intro H. unfold Supabase.createRecord, Supabase.rethrow. fold r.
    rewrite H. reflexivity.
  - intros table id data_ r. split; [apply rethrow_thrown_iff|].
    intro H. unfold Supabase.updateRecord, Supabase.rethrow. fold r.
    rewrite H. reflexivity.
  - intros table query r. split; [apply rethrow_thrown_iff|].
    intro H. unfold Supabase.getRecords, Supabase.rethrow. fold r.
    rewrite H. reflexivity.
  - intros table id. apply rethrow_thrown_iff.
  - intros bucket path_. apply rethrow_thrown_iff.
  - intro r. apply rethrow_thrown_iff.
Qed.

End HelperOutcomes.

(** The property X1 at a storage that accepts the upload. *)
Lemma uploadFile_outcomes_witness :
  Supabase.uploadFile (Fixtures.table_client [] None) "avatars" "u-1.png" tt None
  = Returned "https://storage.example/avatars/u-1.png".
Proof.
  destruct (uploadFile_outcomes (Fixtures.table_client [] None)
              "avatars" "u-1.png" tt None) as [Hret _].
  apply Hret. exists (Supabase.mkUploadData "u-1.png").
  repeat split.
Defined.

(** The property X2 at a client that denies every request. *)
Lemma helpers_throw_iff_remote_error_witness :
  is_thrown (Supabase.createRecord (Fixtures.failing_client Fixtures.denied)
               "profiles" 7%Z) = true.
Proof.
  destruct (helpers_throw_iff_remote_error
              (Fixtures.failing_client Fixtures.denied)) as [Hcreate _].
  apply (Hcreate "profiles" 7%Z). discriminate.
Defined.

(** ** The shape of the query of [getRecords] *)

Section GetRecordsShape.

Context {Value : Type}.



End GetRecordsShape.

(** ** Walking through the pages of [getRecords] *)

Section GetRecordsWalk.

Context {Row Value File : Type}.

Variable row_matches : string -> Value -> Row -> bool.
Variable sort_rows : list (string * bool) -> list Row -> list Row.
Variable supabase : Supabase.Client Row Value File.
Variable rows : list Row.

Hypothesis served : Postgrest.serves row_matches sort_rows supabase rows.

Lemma run_offset_only table select filter order (o : Z) :
  (o <> 0)%Z ->
  Postgrest.run row_matches sort_rows
    (Postgrest.request_of
       (Supabase.getRecords_builder table
          (Some (Supabase.mkQuery select filter order None (Some o)))))
    rows
  = Postgrest.slice o 10
      (Postgrest.result_set row_matches sort_rows
         (Postgrest.request_of (Paging.unpaged table select filter order)) rows).
Proof.
  intro Ho. rewrite builder_paging. simpl.
  apply Z.eqb_neq in Ho. rewrite Ho.
  rewrite request_of_chain. unfold Postgrest.run, Postgrest.paginate. simpl.
  replace (o + 10 - 1 - o + 1)%Z with 10%Z by lia. reflexivity.
Qed.

Lemma slice_length {A : Type} (from count : Z) (l : list A) :
  (length (Postgrest.slice from count l) <= Z.to_nat count)%nat.
Proof.
  unfold Postgrest.slice. apply firstn_le_length.
Qed.

(** X4: a page of [getRecords] never holds more rows than the non-zero
    limit asked for, and never more than ten when only a non-zero offset
    is given; a page that starts at or behind the end of the result set
    is empty. *)
Theorem getRecords_page_bounds :
  forall (table : string) (select : JS.jstring)
         (filter : option (list (string * Value)))
         (order : option Supabase.OrderBy) (limit offset : Z),
    (0 < limit)%Z -> (0 < offset)%Z ->
    let all :=
      Postgrest.result_set row_matches sort_rows
        (Postgrest.request_of (Paging.unpaged table select filter order)) rows in
    let paged :=
      Reading.rows_of
        (Supabase.getRecords supabase table
           (Some (Supabase.mkQuery select filter order (Some limit) (Some offset)))) in
    let offset_only :=
      Reading.rows_of
        (Supabase.getRecords supabase table
           (Some (Supabase.mkQuery select filter order None (Some offset)))) in
    (length paged <= Z.to_nat limit)%nat
    /\ (length offset_only <= 10)%nat
    /\ length paged = Nat.min (Z.to_nat limit) (length all - Z.to_nat offset)
    /\ ((length all <= Z.to_nat offset)%nat -> paged = [] /\ offset_only = []).
Proof.
  intros table select filter order limit offset Hl Ho all paged offset_only.
  subst paged offset_only.
  rewrite !(getRecords_served _ _ _ _ served). simpl.
  rewrite run_paged by lia. rewrite run_offset_only by lia. fold all.
  split; [apply slice_length|].
  split; [apply (slice_length offset 10 all)|].
  split.
  - unfold Postgrest.slice. rewrite length_firstn, length_skipn. reflexivity.
  - intro Hend. unfold Postgrest.slice.
    rewrite (skipn_all2 all Hend). rewrite !firstn_nil. split; reflexivity.
Qed.

(** The rows of page [k] for a page size [limit]. *)
Lemma page_rows table select filter order (limit : Z) (k : nat) :
  (0 < limit)%Z ->
  Reading.rows_of
    (Supabase.getRecords supabase table
       (Some (Supabase.mkQuery select filter order (Some limit)
                (Some (Z.of_nat k * limit)%Z))))
  = Postgrest.slice (Z.of_nat k * limit) limit
      (Postgrest.result_set row_matches sort_rows
         (Postgrest.request_of (Paging.unpaged table select filter order)) rows).
Proof.
  intro Hl. rewrite (getRecords_served _ _ _ _ served). simpl.
  apply run_paged. lia.
Qed.

(** X5: fetching pages 0, 1, ..., n-1 with a positive page size, page [k]
    at offset [k * limit], and concatenating them gives the first
    [n * limit] rows of the filtered and ordered result set: no row is
    skipped and none is delivered twice, the first page (offset 0)
    included. *)
Theorem getRecords_pages_concatenate :
  forall (table : string) (select : JS.jstring)
         (filter : option (list (string * Value)))
         (order : option Supabase.OrderBy) (limit : Z) (n : nat),
    (0 < limit)%Z ->
    concat
      (map (fun k =>
              Reading.rows_of
                (Supabase.getRecords supabase table
                   (Some (Supabase.mkQuery select filter order (Some limit)
                            (Some (Z.of_nat k * limit)%Z)))))
           (seq 0 n))
    = firstn (n * Z.to_nat limit)
        (Postgrest.result_set row_matches sort_rows
           (Postgrest.request_of (Paging.unpaged table select filter order))
           rows).
Proof.
  intros table select filter order limit n Hl.
  induction n as [|n IH].
  - reflexivity.
  - rewrite seq_S, map_app, concat_app, IH. simpl.
    rewrite page_rows by exact Hl. rewrite app_nil_r.
    unfold Postgrest.slice.
    replace (Z.to_nat (Z.of_nat n * limit)) with (n * Z.to_nat limit)%nat by nia.
    replace (Z.to_nat limit + n * Z.to_nat limit)%nat
      with (n * Z.to_nat limit + Z.to_nat limit)%nat by lia.
    rewrite firstn_add. reflexivity.
Qed.

End GetRecordsWalk.

(** The property X4 at limit 4, offset 13 of fifteen rows. *)
Lemma getRecords_page_bounds_witness :
  Reading.rows_of
    (Supabase.getRecords (Fixtures.table_client Fixtures.fifteen_rows None)
       "appointments"
       (Some (Supabase.mkQuery None None None (Some 4%Z) (Some 13%Z))))
  = [13; 14]%Z
  /\ (length
        (Reading.rows_of
           (Supabase.getRecords (Fixtures.table_client Fixtures.fifteen_rows None)
              "appointments"
              (Some (Supabase.mkQuery None None None (Some 4%Z) (Some 13%Z)))))
      <= Z.to_nat 4)%nat.
Proof.
  split; [reflexivity|].
  apply (getRecords_page_bounds
           Fixtures.row_matches Fixtures.sort_rows
           (Fixtures.table_client Fixtures.fifteen_rows None)
           Fixtures.fifteen_rows
           (table_client_serves Fixtures.fifteen_rows None)
           "appointments" None None None 4%Z 13%Z);
    reflexivity.
Defined.

(** The property X5 at four pages of four rows, descending. *)
Lemma getRecords_pages_concatenate_witness :
  concat
    (map (fun k =>
            Reading.rows_of
              (Supabase.getRecords
                 (Fixtures.table_client Fixtures.fifteen_rows None)
                 "appointments"
                 (Some (Supabase.mkQuery None None
                          (Some (Supabase.mkOrderBy "id" (Some false)))
                          (Some 4%Z) (Some (Z.of_nat k * 4)%Z)))))
         (seq 0 4))
  = [14; 13; 12; 11; 10; 9; 8; 7; 6; 5; 4; 3; 2; 1; 0]%Z.
Proof.
  rewrite (getRecords_pages_concatenate
             Fixtures.row_matches Fixtures.sort_rows
             (Fixtures.table_client Fixtures.fifteen_rows None)
             Fixtures.fifteen_rows
             (table_client_serves Fixtures.fifteen_rows None)
             "appointments" None None
             (Some (Supabase.mkOrderBy "id" (Some false))) 4%Z 4).
  - reflexivity.
  - reflexivity.
Defined.

(** ** Invariants of the derived user view *)

Lemma or_undefined_normal (v : JS.jstring) :
  Reading.absent_or_nonempty (JS.or_undefined v) = true.
Proof.
  unfold JS.or_undefined, JS.or, JS.truthy.
  destruct v as [s|]; [destruct (JS.nonempty s) eqn:E|]; simpl;
    try rewrite E; reflexivity.
Qed.

(** X6: in the derived user view no optional property is ever the empty
    string (an empty profile column reads as undefined), the role is never
    empty, and without a profile row every optional property is undefined
    while the creation date is the one of the auth user. *)
Theorem derived_view_optional_fields :
  forall (u : Supabase.AuthUser.t) (profile : option Profile.t),
  exists view : User.t,
    UseAuth.derive_user (Some u) profile = Some view
    /\ forallb Reading.absent_or_nonempty (Reading.optional_fields view) = true
    /\ JS.nonempty (User.role view) = true
    /\ (profile = None ->
        Reading.optional_fields view = repeat None 8
        /\ User.dateCreated view = Supabase.AuthUser.created_at u)
    /\ (forall p, profile = Some p ->
        JS.truthy (Profile.created_at p) = true ->
        User.dateCreated view = Profile.created_at p).
Proof.
  intros u profile. eexists. split; [reflexivity|].
  split; [|split; [|split]].
  - unfold Reading.optional_fields. simpl.
    rewrite !or_undefined_normal. reflexivity.
  - simpl. apply or_str_nonempty. reflexivity.
  - intros ->. split; reflexivity.
  - intros p -> Hc. simpl. unfold JS.or. rewrite Hc. reflexivity.
Qed.

(** The property X6 at a profile whose optional columns are empty. *)
Lemma derived_view_optional_fields_witness :
  exists view : User.t,
    UseAuth.derive_user (Some Fixtures.bare_user)
      (Some (Profile.mk None None None (Some "") (Some "") None None None None
               None (Some "2023-05-05") None)) = Some view
    /\ User.avatar view = None
    /\ User.dateCreated view = Some "2023-05-05".
Proof.
  destruct (derived_view_optional_fields Fixtures.bare_user
              (Some (Profile.mk None None None (Some "") (Some "") None None
                       None None None (Some "2023-05-05") None)))
    as [view [Hview [_ [_ [_ Hdate]]]]].
  exists view. split; [exact Hview|].
  split.
  - injection Hview as <-. reflexivity.
  - apply (Hdate _ eq_refl). reflexivity.
Defined.

Lemma is_UserRole_patient : Reading.is_UserRole "patient" = true.
Proof. reflexivity. Qed.

(** X7: when the role stored in the profile row and the role in the user
    metadata are each absent or one of the four roles of the enum, the
    role of the derived view is one of the four roles. *)
Theorem derived_role_in_enum :
  forall (u : Supabase.AuthUser.t) (profile : option Profile.t) (view : User.t),
    Reading.role_well_typed (JS.opt_get profile Profile.role) = true ->
    Reading.role_well_typed
      (JS.opt_get (Supabase.AuthUser.user_metadata u)
                  Supabase.UserMetadata.role) = true ->
    UseAuth.derive_user (Some u) profile = Some view ->
    Reading.is_UserRole (User.role view) = true.
Proof.
  intros u profile view Hp Hm Hview.
  injection Hview as <-. simpl.
  unfold JS.or, JS.or_str, JS.truthy.
  destruct (JS.opt_get profile Profile.role) as [r|]; simpl in *.
  - destruct (JS.nonempty r) eqn:Er; [rewrite Er; exact Hp|].
    destruct (JS.opt_get (Supabase.AuthUser.user_metadata u)
                Supabase.UserMetadata.role) as [m|]; simpl in *.
    + destruct (JS.nonempty m); [exact Hm | reflexivity].
    + reflexivity.
  - destruct (JS.opt_get (Supabase.AuthUser.user_metadata u)
                Supabase.UserMetadata.role) as [m|]; simpl in *.
    + destruct (JS.nonempty m); [exact Hm | reflexivity].
    + reflexivity.
Qed.

(** The property X7 at an identity with user-metadata role doctor. *)
Lemma derived_role_in_enum_witness :
  exists view,
    UseAuth.derive_user (Some Fixtures.admin_by_app) None = Some view
    /\ Reading.is_UserRole (User.role view) = true.
Proof.
  eexists. split; [reflexivity|].
  apply (derived_role_in_enum Fixtures.admin_by_app None);
    reflexivity.
Defined.

(** X8: whenever the context says authenticated, the user view is
    present and carries the non-empty id of the auth user.  The converse
    fails: an auth user with an empty id has a view but is not
    authenticated. *)
Theorem authenticated_has_user :
  forall (hook : UseSupabaseAuth.HookState),
    let ctx := UseAuth.AuthProvider hook in
    (UseAuth.ctx_isAuthenticated ctx = true ->
     exists u view,
       UseSupabaseAuth.user hook = Some u
       /\ UseAuth.user ctx = Some view
       /\ User.id view = Supabase.AuthUser.id u
       /\ User.id view <> "")
    /\ (UseAuth.user ctx = None -> UseAuth.ctx_isAuthenticated ctx = false)
    /\ (forall u, UseSupabaseAuth.user hook = Some u ->
          Supabase.AuthUser.id u = "" ->
          UseAuth.ctx_isAuthenticated ctx = false
          /\ UseAuth.user ctx <> None).
Proof.
  intros [user profile loading error] ctx. subst ctx. simpl.
  split; [|split].
  - intro H. destruct user as [u|]; [|discriminate]. simpl in H.
    exists u. eexists. split; [reflexivity|]. split; [reflexivity|].
    simpl. split; [reflexivity|]. apply nonempty_true_iff. exact H.
  - destruct user; [discriminate | reflexivity].
  - intros u -> Hid. simpl. rewrite Hid. split; [reflexivity | discriminate].
Qed.

(** The property X8 at a signed-in user without profile row. *)
Lemma authenticated_has_user_witness :
  exists view,
    UseAuth.user
      (UseAuth.AuthProvider
         (UseSupabaseAuth.mkHookState (Some Fixtures.bare_user) None false None))
    = Some view
    /\ User.id view = "u-2".
Proof.
  destruct (authenticated_has_user
              (UseSupabaseAuth.mkHookState (Some Fixtures.bare_user) None
                 false None)) as [Hauth _].
  destruct (Hauth eq_refl) as [u [view [Hu [Hview [Hid _]]]]].
  exists view. split; [exact Hview|].
  rewrite Hid. injection Hu as <-. reflexivity.
Defined.

(** X9: when neither the application metadata nor the profile row holds
    a role, the derived view and [getUserRole] agree, up to the default:
    the view shows what [getUserRole] resolves to, and "patient" when it
    resolves to null. *)
Theorem derived_role_agrees_with_getUserRole :
  forall (u : Supabase.AuthUser.t) (profile : option Profile.t) (view : User.t),
    JS.truthy (JS.opt_get (Supabase.AuthUser.app_metadata u)
                          Supabase.AppMetadata.role) = false ->
    JS.truthy (JS.opt_get profile Profile.role) = false ->
    UseAuth.derive_user (Some u) profile = Some view ->
    User.role view = JS.or_str (Supabase.getUserRole (Some u)) "patient".
Proof.
  intros u profile view Ha Hp Hview.
  injection Hview as <-. simpl.
  unfold JS.or. rewrite Ha, Hp.
  destruct (JS.truthy (JS.opt_get (Supabase.AuthUser.user_metadata u)
                         Supabase.UserMetadata.role)) eqn:Hm.
  - reflexivity.
  - unfold JS.or_str.
    destruct (JS.opt_get (Supabase.AuthUser.user_metadata u)
                Supabase.UserMetadata.role) as [m|]; simpl in *;
      [rewrite Hm|]; reflexivity.
Qed.

(** The property X9 at an identity without any metadata. *)
Lemma derived_role_agrees_with_getUserRole_witness :
  Supabase.getUserRole (Some Fixtures.bare_user) = None
  /\ exists view,
       UseAuth.derive_user (Some Fixtures.bare_user) None = Some view
       /\ User.role view = "patient".
Proof.
  split; [reflexivity|].
  eexists. split; [reflexivity|].
  apply (derived_role_agrees_with_getUserRole Fixtures.bare_user None);
    reflexivity.
Defined.

(** ** The name taken from the email *)

Lemma split_head_no_sep (sep : ascii) (s : string) :
  Precedence.occurs sep s = false -> JS.split_head sep s = s.
Proof.
  induction s as [|c s IH]; simpl; [reflexivity|].
  intro H. apply Bool.orb_false_iff in H as [Hc Hs].
  rewrite Hc, (IH Hs). reflexivity.
Qed.

Lemma split_head_join (sep : ascii) (a b : string) :
  Precedence.occurs sep a = false ->
  JS.split_head sep (a ++ String sep b) = a.
Proof.
  induction a as [|c a IH]; simpl.
  - intros _. rewrite Ascii.eqb_refl. reflexivity.
  - intro H. apply Bool.orb_false_iff in H as [Hc Ha].
    rewrite Hc, (IH Ha). reflexivity.
Qed.

(** X10: joining a local part without at sign, an at sign and anything
    else, and taking [split('@')[0]] gives the local part back; a string
    without at sign is returned whole.  So an auth user without profile
    row and without metadata name, whose email is local@domain with a
    non-empty local part, is shown under the local part; and under "User"
    when the email starts with the at sign. *)
Theorem name_from_email_local_part :
  forall (id : string) (local domain : string)
         (app_metadata : option Supabase.AppMetadata.t)
         (created_at : JS.jstring) (view : User.t),
    Precedence.occurs "@" local = false ->
    UseAuth.derive_user
      (Some (Supabase.AuthUser.mk id (Some (local ++ String "@" domain)%string)
               None app_metadata created_at))
      None = Some view ->
    UseAuth.email_local_part (Some (local ++ String "@" domain)%string)
    = Some local
    /\ UseAuth.email_local_part (Some local) = Some local
    /\ User.name view = (if JS.nonempty local then local else "User")
    /\ User.email view = (local ++ String "@" domain)%string.
Proof.
  intros id local domain am created_at view Hocc Hview.
  injection Hview as <-. simpl.
  rewrite (split_head_join "@" local domain Hocc).
  rewrite (split_head_no_sep "@" local Hocc).
  split; [reflexivity|]. split; [reflexivity|].
  split.
  - destruct local; reflexivity.
  - destruct local; reflexivity.
Qed.

(** The property X10 at an email with two at signs. *)
Lemma name_from_email_local_part_witness :
  exists view,
    UseAuth.derive_user
      (Some (Supabase.AuthUser.mk "u-3" (Some "joe@site@clinic.example")
               None None None)) None = Some view
    /\ User.name view = "joe".
Proof.
  eexists. split; [reflexivity|].
  apply (name_from_email_local_part "u-3" "joe" "site@clinic.example"
           None None _ eq_refl eq_refl).
Defined.

(** ** Channel names of table subscriptions *)

Lemma string_length_append (a b : string) :
  String.length (a ++ b) = String.length a + String.length b.
Proof.
  induction a as [|c a IH]; simpl; [reflexivity | rewrite IH; reflexivity].
Qed.

Lemma append_same_suffix_inj (suffix a b : string) :
  (a ++ suffix)%string = (b ++ suffix)%string -> a = b.
Proof.
  revert b. induction a as [|c a IH]; intros [|d b] H; simpl in H.
  - reflexivity.
  - exfalso. apply (f_equal String.length) in H. simpl in H.
    rewrite string_length_append in H. lia.
  - exfalso. apply (f_equal String.length) in H. simpl in H.
    rewrite string_length_append in H. lia.
  - injection H as Hc Hrest. subst d. f_equal. apply IH. exact Hrest.
Qed.

(** X11: the channel [subscribeToTable] opens is named after the table
    alone: subscriptions to different tables get different channel names,
    while two subscriptions to the same table share one name whatever
    their filters and callbacks.  The listener is for every change event
    of that table in the public schema, with the caller's filter, and the
    channel is subscribed. *)
Theorem subscribeToTable_channel_name :
  forall (Callback : Type) (table1 table2 : string)
         (callback1 callback2 : Callback) (filter1 filter2 : JS.jstring),
    let c1 := Realtime.subscribeToTable table1 callback1 filter1 in
    let c2 := Realtime.subscribeToTable table2 callback2 filter2 in
    (Realtime.name c1 = Realtime.name c2 <-> table1 = table2)
    /\ Realtime.changes c1
       = Realtime.mkPostgresChanges "*" "public" table1 filter1
    /\ Realtime.callback c1 = callback1
    /\ Realtime.subscribed c1 = true.
Proof.
  intros Callback table1 table2 callback1 callback2 filter1 filter2 c1 c2.
  subst c1 c2. simpl.
  split; [|repeat split].
  split.
  - apply append_same_suffix_inj.
  - intros ->. reflexivity.
Qed.

(** The property X11 at two filtered subscriptions to one table. *)
Lemma subscribeToTable_channel_name_witness :
  Realtime.name
    (Realtime.subscribeToTable "chat_messages" 1 (Some "channel_id=eq.7"))
  = Realtime.name
      (Realtime.subscribeToTable "chat_messages" 2 (Some "channel_id=eq.9")).
Proof.
  apply (subscribeToTable_channel_name nat "chat_messages" "chat_messages"
           1 2 (Some "channel_id=eq.7") (Some "channel_id=eq.9")).
  reflexivity.
Defined.

(** ** Visiting pages *)





(** X13: once loading is over, /admin has no route at all for a visitor
    whose derived role is not admin, authenticated or not; for a derived
    role admin it is the admin dashboard when authenticated and a
    redirect to /login otherwise.  The derived role is admin already when
    the profile row has no role and the user metadata says admin. *)
Theorem visit_admin_page :
  forall (hook : UseSupabaseAuth.HookState),
    UseSupabaseAuth.loading hook = false ->
    let ctx := UseAuth.AuthProvider hook in
    Routing.visit (App.App ctx) "/admin"
    = (if App.isAdmin (UseAuth.user ctx)
       then if UseAuth.ctx_isAuthenticated ctx
            then Routing.Page App.AdminDashboard
            else Routing.RedirectTo "/login"
       else Routing.NoMatch)
    /\ (forall u metadata,
          UseSupabaseAuth.user hook = Some u ->
          Supabase.AuthUser.id u <> "" ->
          Supabase.AuthUser.user_metadata u = Some metadata ->
          Supabase.UserMetadata.role metadata = Some "admin" ->
          JS.truthy (JS.opt_get (UseSupabaseAuth.profile hook) Profile.role)
          = false ->
          Routing.visit (App.App ctx) "/admin"
          = Routing.Page App.AdminDashboard).
Proof.
  intros [user profile loading error] Hl ctx. simpl in Hl. subst loading ctx.
  assert (Hvisit :
            Routing.visit
              (App.App (UseAuth.AuthProvider
                          (UseSupabaseAuth.mkHookState user profile false error)))
              "/admin"
            = (if App.isAdmin (UseAuth.derive_user user profile)
               then if UseAuth.isAuthenticated user
                    then Routing.Page App.AdminDashboard
                    else Routing.RedirectTo "/login"
               else Routing.NoMatch)).
  { unfold App.App, UseAuth.AuthProvider. simpl.
    destruct (App.isAdmin (UseAuth.derive_user user profile)),
             (UseAuth.isAuthenticated user); reflexivity. }
  split; [exact Hvisit|].
  intros u metadata Hu Hid Hm Hr Hp. simpl in Hu, Hp. subst user.
  rewrite Hvisit. simpl.
  rewrite Hm. simpl. rewrite Hr. unfold JS.or. rewrite Hp. simpl.
  apply nonempty_true_iff in Hid. rewrite Hid. reflexivity.
Qed.

(** The property X13 at a user who put role admin in the sign-up
    metadata and has no profile row. *)
Lemma visit_admin_page_witness :
  Routing.visit
    (App.App
       (UseAuth.AuthProvider
          (UseSupabaseAuth.mkHookState
             (Some (Supabase.AuthUser.mk "u-9" (Some "eve@clinic.example")
                      (Some (Supabase.UserMetadata.mk None None (Some "admin")))
                      None None))
             None false None)))
    "/admin"
  = Routing.Page App.AdminDashboard.
Proof.
  destruct (visit_admin_page
              (UseSupabaseAuth.mkHookState
                 (Some (Supabase.AuthUser.mk "u-9" (Some "eve@clinic.example")
                          (Some (Supabase.UserMetadata.mk None None (Some "admin")))
                          None None))
                 None false None) eq_refl) as [_ Hadmin].
  apply (Hadmin _ (Supabase.UserMetadata.mk None None (Some "admin")) eq_refl);
    [discriminate | reflexivity | reflexivity | reflexivity].
Defined.

(** ** The login form *)

Ltac split_ands :=
  repeat match goal with
         | |- _ /\ _ => split
         end.

(** X14: after [handleSubmit] the form is never left loading and the
    typed fields are untouched; exactly one of the two banners is set,
    whatever was shown before: the success banner with the result's
    message when [signIn] resolves with success, and only then a
    navigation to /dashboard is scheduled; the error banner with the
    result's message when it resolves without success; and a non-empty
    error text when it throws (the thrown message, or a default). *)
Theorem handleSubmit_banners :
  forall (signIn : UseSupabaseAuth.SignInData
                   -> LoginPage.Settled UseSupabaseAuth.AuthResult)
         (st : LoginPage.State),
    let settled :=
      signIn (UseSupabaseAuth.mkSignInData (LoginPage.email st)
                                           (LoginPage.password st)) in
    let st' := fst (LoginPage.handleSubmit signIn st) in
    let effects := snd (LoginPage.handleSubmit signIn st) in
    LoginPage.isLoading st' = false
    /\ LoginPage.email st' = LoginPage.email st
    /\ LoginPage.password st' = LoginPage.password st
    /\ LoginPage.showPassword st' = LoginPage.showPassword st
    /\ (LoginPage.error st' = None <-> LoginPage.success st' <> None)
    /\ (effects = [LoginPage.NavigateAfter "/dashboard" 1000]
        <-> LoginPage.success st' <> None)
    /\ (effects = [] <-> LoginPage.error st' <> None)
    /\ (forall r, settled = LoginPage.Resolved r ->
          if UseSupabaseAuth.success r
          then LoginPage.success st' = Some (UseSupabaseAuth.message r)
          else LoginPage.error st' = Some (UseSupabaseAuth.message r))
    /\ (forall m, settled = LoginPage.Rejected m ->
          exists text,
            LoginPage.error st' = Some text
            /\ JS.nonempty text = true
            /\ (JS.truthy m = true -> m = Some text)).
Proof.
  intros signIn st settled st' effects.
  subst st' effects. unfold LoginPage.handleSubmit. fold settled.
  destruct settled as [r | m] eqn:Hs.
  - destruct (UseSupabaseAuth.success r) eqn:Hr; simpl;
      split_ands; try reflexivity;
      try (split; intros; congruence).
    + intros r' Hr'. injection Hr' as <-. rewrite Hr. reflexivity.
    + intros m Hm. discriminate.
    + intros r' Hr'. injection Hr' as <-. rewrite Hr. reflexivity.
    + intros m Hm. discriminate.
  - simpl. split_ands; try reflexivity; try (split; intros; congruence).
    + intros r Hr. discriminate.
    + intros m' Hm'. injection Hm' as <-.
      eexists. split; [reflexivity|]. split.
      * apply or_str_nonempty. reflexivity.
      * unfold JS.truthy, JS.or_str. destruct m as [s|]; [|discriminate].
        intro Hs'. rewrite Hs'. reflexivity.
Qed.

(** The property X14 at a sign-in that throws without a message. *)
Lemma handleSubmit_banners_witness :
  LoginPage.error
    (fst (LoginPage.handleSubmit (fun _ => LoginPage.Rejected None)
            (LoginPage.mkState "sam@clinic.example" "guess" false None
               (Some "Welcome") true)))
  = Some "An error occurred. Please try again later.".
Proof.
  destruct (handleSubmit_banners (fun _ => LoginPage.Rejected None)
              (LoginPage.mkState "sam@clinic.example" "guess" false None
                 (Some "Welcome") true))
    as [_ [_ [_ [_ [_ [_ [_ [_ Hrej]]]]]]]].
  destruct (Hrej None eq_refl) as [text [Herr [Htext _]]].
  rewrite Herr. simpl in Herr. injection Herr as <-. reflexivity.
Defined.



(** ** [login] and [register] *)

Lemma register_reports_success
  (signUp : SignUp.t -> Outcome UseSupabaseAuth.AuthResult)
  (name email password role : string) :
  UseAuthRegister.register signUp name email password role None = true
  <-> exists r,
        signUp (SignUp.mk email password name role
                  None None None None None None) = Returned r
        /\ UseSupabaseAuth.success r = true.
Proof.
  unfold UseAuthRegister.register. simpl.
  destruct (signUp _) as [r | e].
  - split; [intro H; exists r; split; [reflexivity | exact H]|].
    intros [r' [Hr' Hs]]. injection Hr' as <-. exact Hs.
  - split; [discriminate|]. intros [r [Hr _]]. discriminate.
Qed.

Lemma togglePasswordVisibility_twice (st : LoginPage.State) :
  LoginPage.togglePasswordVisibility (LoginPage.togglePasswordVisibility st)
  = st.
Proof.
  destruct st as [e p s er su l]. unfold LoginPage.togglePasswordVisibility.
  simpl. rewrite Bool.negb_involutive. reflexivity.
Qed.
